(** * Printing & Custom Mugs API: pricing and checkout engine

    A shallow embedding of [src/main.py] and [src/schemas.py] together with
    the properties stated about them.

    Conventions of the embedding.
    - A Python [dict] with string keys is a [gmap string _]; [d.get(k)] is
      [dict_get d k].
    - A value of type [Any] (a decoded JSON value) is a [pyval].
    - A raised exception is the [Raise] branch of [result].  The handlers of
      [main.py] raise [HTTPException] themselves; [TypeError], [ValueError]
      and [OverflowError] come out of the builtin [int], of hashing and of
      the conversion of an [int] to a [float], and are not caught anywhere
      in [main.py].
    - Python [int] is unbounded, so it is [Z].  A Python [float] that the
      pricing code computes is a [double]: every one of them comes from a
      literal such as [150.0], from [float(base)] or from a sum or product
      of such values with integers, so the finite ones are integers; they
      are rounded to 53 significant bits, to nearest and ties to even, and
      overflow as IEEE 754 binary64 does.
    - What the builtin [int] does on a [str] argument, and what the [bson]
      constructor [ObjectId] does, belongs to libraries outside the
      repository: both are section variables. *)

From Stdlib Require Import ZArith Ascii String List Bool Lia.
From Stdlib Require Floats.SpecFloat.
From stdpp Require Import base option list gmap strings.

#[local] Set Warnings "-register-all".
Local Open Scope string_scope.
Local Open Scope Z_scope.

(** ** Python values and exceptions *)

Inductive exn : Type :=
  | HTTPException (status_code : Z) (detail : string)
  | TypeError
  | ValueError
  | OverflowError.

Inductive result (A : Type) : Type :=
  | Ok (a : A)
  | Raise (e : exn).
Arguments Ok {A} a.
Arguments Raise {A} e.

#[global] Instance result_ret : MRet result := λ A a, Ok a.
#[global] Instance result_bind : MBind result := λ A B k r,
  match r with
  | Ok a => k a
  | Raise e => Raise e
  end.

(** A double as it arrives in a JSON body: [m * 2^e], an infinity or a
    NaN ([json.loads] accepts the last two). *)
Inductive pyfloat : Type :=
  | Finite (m e : Z)
  | Inf (negative : bool)
  | NaN.

Inductive pyval : Type :=
  | VNone
  | VBool (b : bool)
  | VInt (n : Z)
  | VFloat (f : pyfloat)
  | VStr (s : string)
  | VList (l : list pyval)
  | VDict (d : list (string * pyval)).

Abbreviation Dict := (gmap string pyval).

(** [d.get(k)] and [d.get(k, dflt)]. *)
Definition dict_get (d : Dict) (k : string) : pyval :=
  default VNone (d !! k).

Definition dict_get_default (d : Dict) (k : string) (dflt : pyval) : pyval :=
  default dflt (d !! k).

(** [int(f)] on a float truncates towards zero. *)
Definition float_trunc (f : pyfloat) : result Z :=
  match f with
  | Finite m e => Ok (if 0 <=? e then m * 2 ^ e else Z.quot m (2 ^ (- e)))
  | Inf _ => Raise OverflowError
  | NaN => Raise ValueError
  end.

(** Truth value of a Python object, as tested by [if x] and [not x]. *)
Definition truthy (v : pyval) : bool :=
  match v with
  | VNone => false
  | VBool b => b
  | VInt n => negb (n =? 0)
  | VFloat (Finite m _) => negb (m =? 0)
  | VFloat _ => true
  | VStr s => negb (bool_decide (s = ""))
  | VList l => match l with [] => false | _ => true end
  | VDict d => match d with [] => false | _ => true end
  end.

(** [v == s] for a string literal [s]: only a [str] equals a [str]. *)
Definition py_eq_str (v : pyval) (s : string) : bool :=
  match v with
  | VStr t => bool_decide (t = s)
  | _ => false
  end.

(** [hash(v)] raises [TypeError] on lists and dicts. *)
Definition hashable (v : pyval) : bool :=
  match v with
  | VList _ | VDict _ => false
  | _ => true
  end.

(** ** Doubles

    The finite doubles of the pricing code are integers: [Fin z] is the
    double whose value is [z] ([Fin 0] is [0.0]) and [NegZero] is [-0.0].
    [round53] is rounding to nearest, ties to even, at 53 bits; a result of
    magnitude [2^1024] or more is out of range. *)

Inductive double : Type :=
  | Fin (z : Z)
  | NegZero
  | Infinite (negative : bool)
  | NotANumber.

Definition round53 (z : Z) : Z :=
  let n := Z.abs z in
  if n <? 2 ^ 53 then z
  else
    let k := Z.log2 n - 52 in
    let q := n / 2 ^ k in
    let r := n mod 2 ^ k in
    let half := 2 ^ (k - 1) in
    let q' := if (half <? r) || ((r =? half) && Z.odd q) then q + 1 else q in
    Z.sgn z * (q' * 2 ^ k).

(** [float(n)], and the conversion of the [int] operand of [float + int]
    and [float * int]: [OverflowError] when the rounded value is out of
    range. *)
Definition float_of_int (n : Z) : result double :=
  let r := round53 n in
  if Z.abs r <? 2 ^ 1024 then Ok (Fin r) else Raise OverflowError.

(** The double nearest to a non-zero exact result of an operation, an
    infinity when it is out of range; [0.0] for an exact zero sum. *)
Definition round_double (z : Z) : double :=
  let r := round53 z in
  if Z.abs r <? 2 ^ 1024 then Fin r else Infinite (z <? 0).

Definition sign_bit (x : double) : bool :=
  match x with
  | Fin z => z <? 0
  | NegZero => true
  | Infinite negative => negative
  | NotANumber => false
  end.

Definition is_zero (x : double) : bool :=
  match x with
  | Fin z => z =? 0
  | NegZero => true
  | _ => false
  end.

Arguments float_of_int : simpl never.
Arguments round_double : simpl never.

(** [x + y] on floats. *)
Definition fadd (x y : double) : double :=
  match x, y with
  | NotANumber, _ | _, NotANumber => NotANumber
  | Infinite s, Infinite t => if Bool.eqb s t then Infinite s else NotANumber
  | Infinite s, _ => Infinite s
  | _, Infinite t => Infinite t
  | NegZero, NegZero => NegZero
  | NegZero, Fin b => Fin b
  | Fin a, NegZero => Fin a
  | Fin a, Fin b => round_double (a + b)
  end.

(** [x * y] on floats. *)
Definition fmul (x y : double) : double :=
  match x, y with
  | NotANumber, _ | _, NotANumber => NotANumber
  | Infinite s, Infinite t => Infinite (xorb s t)
  | Infinite s, z | z, Infinite s =>
      if is_zero z then NotANumber else Infinite (xorb s (sign_bit z))
  | _, _ =>
      let a := match x with Fin a => a | _ => 0 end in
      let b := match y with Fin b => b | _ => 0 end in
      if a * b =? 0 then
        if xorb (sign_bit x) (sign_bit y) then NegZero else Fin 0
      else round_double (a * b)
  end.

(** [x + n] and [x * n] for a float [x] and an int [n]: the int is
    converted first. *)
Definition float_add_int (x : double) (n : Z) : result double :=
  y ← float_of_int n; Ok (fadd x y).

Definition float_mul_int (x : double) (n : Z) : result double :=
  y ← float_of_int n; Ok (fmul x y).

(** [x > n] for a float [x] and an int [n]: an exact comparison, false
    for a NaN. *)
Definition float_gt_int (x : double) (n : Z) : bool :=
  match x with
  | Fin z => n <? z
  | NegZero => n <? 0
  | Infinite negative => negb negative
  | NotANumber => false
  end.

Section Pricing.

(** The builtin [int] applied to a [str]: [Some n] when the text is an
    integer literal, [None] when [int] raises [ValueError]. *)
Context (int_of_str : string → option Z).

Definition py_int (v : pyval) : result Z :=
  match v with
  | VNone => Raise TypeError
  | VBool b => Ok (if b then 1 else 0)
  | VInt n => Ok n
  | VFloat f => float_trunc f
  | VStr s => match int_of_str s with
              | Some n => Ok n
              | None => Raise ValueError
              end
  | VList _ | VDict _ => Raise TypeError
  end.

(** ** Pricing logic ([main.py], "Pricing Logic") *)

Definition PLATFORM_FEE : Z := 10.
Definition DELIVERY_THRESHOLD : Z := 300.
Definition DELIVERY_FEE : Z := 35.

Definition invalid_options {A : Type} : result A :=
  Raise (HTTPException 400 "Invalid options").

(** The dict literal [prices] of [price_document_printing]. *)
Definition prices : list (string * string * Z * Z) :=
  [ ("bw", "A4", 80, 3);
    ("bw", "A4", 100, 4);
    ("bw", "A4", 130, 5);
    ("bw", "A3", 80, 8);
    ("bw", "A3", 100, 10);
    ("bw", "A3", 130, 12);
    ("colour", "A4", 80, 10);
    ("colour", "A4", 100, 12);
    ("colour", "A4", 130, 15);
    ("colour", "A3", 80, 25);
    ("colour", "A3", 100, 30);
    ("colour", "A3", 130, 35) ].

(** [prices.get((color, size, gsm))]: the key tuple is hashed first, which
    raises on an unhashable component; otherwise the entry whose three
    components are equal to the key's, or [None]. *)
Definition prices_get (color size : pyval) (gsm : Z) : result (option Z) :=
  if hashable color && hashable size then
    Ok (snd <$> find (λ '(c, s, g, _), py_eq_str color c && py_eq_str size s && (gsm =? g)) prices)
  else Raise TypeError.

Definition price_document_printing (opts : Dict) : result double :=
  let color := dict_get opts "color" in
  let size := dict_get opts "size" in
  gsm ← py_int (dict_get opts "gsm");
  pages ← py_int (dict_get_default opts "pages" (VInt 1));
  per_page ← prices_get color size gsm;
  match per_page with
  | None => invalid_options
  | Some per_page =>
      let base := per_page * pages in
      float_of_int base
  end.

Definition price_visiting_cards (opts : Dict) : result double :=
  let paper := dict_get opts "paper" in
  qty ← py_int (dict_get opts "quantity");
  if py_eq_str paper "economy_250_matte" then
    Ok (if qty =? 50 then Fin 150 else Fin 250)
  else if py_eq_str paper "premium_300_matte" || py_eq_str paper "premium_300_gloss" then
    Ok (if qty =? 50 then Fin 250 else Fin 400)
  else invalid_options.

Definition price_letterheads (opts : Dict) : result double :=
  gsm ← py_int (dict_get opts "gsm");
  qty ← py_int (dict_get opts "quantity");
  if gsm =? 100 then Ok (if qty =? 100 then Fin 200 else Fin 350)
  else if gsm =? 130 then Ok (if qty =? 100 then Fin 260 else Fin 450)
  else invalid_options.

Definition price_envelopes (opts : Dict) : result double :=
  let typ := dict_get opts "type" in
  qty ← py_int (dict_get opts "quantity");
  if py_eq_str typ "standard_80" then Ok (if qty =? 100 then Fin 200 else Fin 350)
  else if py_eq_str typ "premium_100" then Ok (if qty =? 100 then Fin 260 else Fin 450)
  else invalid_options.

Definition price_flyers (opts : Dict) : result double :=
  let size := dict_get opts "size" in
  qty ← py_int (dict_get opts "quantity");
  if py_eq_str size "A5" then Ok (if qty =? 50 then Fin 250 else Fin 400)
  else if py_eq_str size "A4" then Ok (if qty =? 50 then Fin 350 else Fin 600)
  else invalid_options.

Definition price_posters (opts : Dict) : result double :=
  qty ← py_int (dict_get opts "quantity");
  Ok (if qty =? 1 then Fin 80 else Fin 700).

Definition price_mugs (opts : Dict) : result double :=
  qty ← py_int (dict_get opts "quantity");
  if qty =? 1 then Ok (Fin 299)
  else if qty =? 2 then Ok (Fin 550)
  else if qty =? 4 then Ok (Fin 1040)
  else invalid_options.

(** *** Add-ons ([schemas.AddOns], [price_addons]) *)

Inductive SpiralBinding : Type := up_to_80 | from_81_to_150.
Inductive Lamination : Type := lam_ID | lam_A4 | lam_A3.

Record AddOns : Type := {
  spiral_binding : option SpiralBinding;
  lamination : option Lamination
}.

Definition spiral_literal (s : SpiralBinding) : string :=
  match s with up_to_80 => "up_to_80" | from_81_to_150 => "81_150" end.

Definition lamination_literal (l : Lamination) : string :=
  match l with lam_ID => "ID" | lam_A4 => "A4" | lam_A3 => "A3" end.

Definition optional_str (o : option string) : pyval :=
  match o with Some s => VStr s | None => VNone end.

(** [AddOns.model_dump()]: both fields are always present in the dict. *)
Definition model_dump (a : AddOns) : Dict :=
  <["spiral_binding" := optional_str (spiral_literal <$> spiral_binding a)]>
    (<["lamination" := optional_str (lamination_literal <$> lamination a)]> ∅).

(** [not addons]: true for [None] and for an empty dict. *)
Definition no_addons (addons : option Dict) : bool :=
  match addons with
  | None => true
  | Some d => (size d =? 0)%nat
  end.

Definition price_addons (addons : option Dict) (base_product : string) (opts : Dict)
  : double :=
  if no_addons addons then Fin 0
  else
    let addons := default ∅ addons in
    let total := Fin 0 in
    let spiral := dict_get addons "spiral_binding" in
    let total :=
      if truthy spiral && String.eqb base_product "document_printing" then
        if py_eq_str spiral "up_to_80" then fadd total (Fin 30)
        else if py_eq_str spiral "81_150" then fadd total (Fin 40)
        else total
      else total in
    let lam := dict_get addons "lamination" in
    let total :=
      if truthy lam then
        if py_eq_str lam "ID" then fadd total (Fin 15)
        else if py_eq_str lam "A4" then fadd total (Fin 40)
        else if py_eq_str lam "A3" then fadd total (Fin 60)
        else total
      else total in
    total.

(** *** The pricing engine ([compute_price]) *)

(** [schemas.CartItem].  [product] is declared as a [Literal] of the seven
    product tags; [compute_price] compares it as a string and has a branch
    for any other tag, so it is a [string] here.  [unit_price] and
    [line_total] are sent by the client and never read. *)
Record CartItem : Type := {
  product : string;
  options : Dict;
  addons : option AddOns;
  quantity : Z;
  unit_price : option pyfloat;
  line_total : option pyfloat
}.

(** One entry of the [line_items] list built by [compute_price]. *)
Record LineItem : Type := {
  li_product : string;
  li_options : Dict;
  li_quantity : Z;
  li_unit_price : double;
  li_addon_cost : double;
  li_line_total : double
}.

(** The dict returned by [compute_price]: [platform_fee] and
    [delivery_fee] are the int constants, the other amounts are floats. *)
Record Quote : Type := {
  q_items : list LineItem;
  q_subtotal : double;
  q_platform_fee : Z;
  q_delivery_fee : Z;
  q_total : double;
  q_contains_office_visiting_cards : bool
}.

(** The three variables the [for] loop of [compute_price] updates. *)
Record LoopState : Type := {
  line_items : list LineItem;
  subtotal : double;
  contains_office : bool
}.

Definition unknown_product {A : Type} : result A :=
  Raise (HTTPException 400 "Unknown product").

(** The [if]/[elif] chain on [prod]: the unit price, and the value of
    [contains_office] after it. *)
Definition price_product (prod : string) (opts : Dict) (contains_office : bool)
  : result (double * bool) :=
  if String.eqb prod "document_printing" then
    unit ← price_document_printing opts; Ok (unit, contains_office)
  else if String.eqb prod "visiting_cards" then
    unit ← price_visiting_cards opts;
    Ok (unit, if py_eq_str (dict_get opts "card_type") "office" then true
              else contains_office)
  else if String.eqb prod "letterheads" then
    unit ← price_letterheads opts; Ok (unit, contains_office)
  else if String.eqb prod "envelopes" then
    unit ← price_envelopes opts; Ok (unit, contains_office)
  else if String.eqb prod "flyers" then
    unit ← price_flyers opts; Ok (unit, contains_office)
  else if String.eqb prod "posters" then
    unit ← price_posters opts; Ok (unit, contains_office)
  else if String.eqb prod "custom_mug" then
    unit ← price_mugs opts; Ok (unit, contains_office)
  else unknown_product.

(** One iteration of the loop.  [it.options or {}] is [it.options] itself:
    the only falsy dict is the empty one.  [it.addons] is a model instance,
    which is truthy, so it is dumped whenever it is not [None]. *)
Definition loop_body (st : LoopState) (it : CartItem) : result LoopState :=
  let prod := product it in
  let opts := options it in
  let qty := quantity it in
  '(unit, office) ← price_product prod opts (contains_office st);
  let addon_cost := price_addons (model_dump <$> addons it) prod opts in
  line_total ← float_mul_int (fadd unit addon_cost) qty;
  Ok {| line_items := line_items st ++
          [ {| li_product := prod; li_options := opts; li_quantity := qty;
               li_unit_price := unit; li_addon_cost := addon_cost;
               li_line_total := line_total |} ];
        subtotal := fadd (subtotal st) line_total;
        contains_office := office |}.

Fixpoint loop (st : LoopState) (items : list CartItem) : result LoopState :=
  match items with
  | [] => Ok st
  | it :: rest => st' ← loop_body st it; loop st' rest
  end.

Definition compute_price (items : list CartItem) : result Quote :=
  st ← loop {| line_items := []; subtotal := Fin 0; contains_office := false |} items;
  let platform_fee := PLATFORM_FEE in
  let delivery_fee :=
    if float_gt_int (subtotal st) DELIVERY_THRESHOLD then 0 else DELIVERY_FEE in
  with_platform_fee ← float_add_int (subtotal st) platform_fee;
  total ← float_add_int with_platform_fee delivery_fee;
  Ok {| q_items := line_items st;
        q_subtotal := subtotal st;
        q_platform_fee := platform_fee;
        q_delivery_fee := delivery_fee;
        q_total := total;
        q_contains_office_visiting_cards := contains_office st |}.

(** *** The loop read as a map over the cart

    The definitions below are not in [main.py]: they name what one
    iteration contributes, so that the loop can be compared with them. *)

(** The unit price of a line: the first component of [price_product]. *)
Definition unit_price_of (it : CartItem) : result double :=
  match price_product (product it) (options it) false with
  | Ok (unit, _) => Ok unit
  | Raise e => Raise e
  end.

(** The line raises the order-level flag. *)
Definition office_line (it : CartItem) : bool :=
  String.eqb (product it) "visiting_cards"
  && py_eq_str (dict_get (options it) "card_type") "office".

(** The entry appended to [line_items] for a line priced at [unit]; the
    conversion of the quantity can overflow. *)
Definition priced_line (it : CartItem) (unit : double) : result LineItem :=
  let addon_cost :=
    price_addons (model_dump <$> addons it) (product it) (options it) in
  line_total ← float_mul_int (fadd unit addon_cost) (quantity it);
  Ok {| li_product := product it; li_options := options it;
        li_quantity := quantity it; li_unit_price := unit;
        li_addon_cost := addon_cost;
        li_line_total := line_total |}.

(** What one iteration appends: the unit price, then the line. *)
Definition price_line (it : CartItem) : result LineItem :=
  unit ← unit_price_of it; priced_line it unit.

Fixpoint price_lines (items : list CartItem) : result (list LineItem) :=
  match items with
  | [] => Ok []
  | it :: rest =>
      line ← price_line it;
      lines ← price_lines rest;
      Ok (line :: lines)
  end.

(** *** Lines that the pricing functions turn down

    A line is [rejected] when its product tag is none of the seven, or when
    its numeric options convert to integers and the dimension that the
    product's pricing function tests is outside the values it accepts. *)

Definition known_products : list string :=
  [ "document_printing"; "visiting_cards"; "letterheads"; "envelopes";
    "flyers"; "posters"; "custom_mug" ].

Inductive rejected (it : CartItem) : Prop :=
  | rejected_product :
      product it ∉ known_products →
      rejected it
  | rejected_document_printing (gsm pages : Z) :
      product it = "document_printing" →
      py_int (dict_get (options it) "gsm") = Ok gsm →
      py_int (dict_get_default (options it) "pages" (VInt 1)) = Ok pages →
      hashable (dict_get (options it) "color") = true →
      hashable (dict_get (options it) "size") = true →
      (∀ c s per_page, (c, s, gsm, per_page) ∈ prices →
         ¬ (dict_get (options it) "color" = VStr c
            ∧ dict_get (options it) "size" = VStr s)) →
      rejected it
  | rejected_visiting_cards (qty : Z) :
      product it = "visiting_cards" →
      py_int (dict_get (options it) "quantity") = Ok qty →
      dict_get (options it) "paper" ∉
        [ VStr "economy_250_matte"; VStr "premium_300_matte";
          VStr "premium_300_gloss" ] →
      rejected it
  | rejected_letterheads (gsm qty : Z) :
      product it = "letterheads" →
      py_int (dict_get (options it) "gsm") = Ok gsm →
      py_int (dict_get (options it) "quantity") = Ok qty →
      gsm ∉ [100; 130] →
      rejected it
  | rejected_envelopes (qty : Z) :
      product it = "envelopes" →
      py_int (dict_get (options it) "quantity") = Ok qty →
      dict_get (options it) "type" ∉ [ VStr "standard_80"; VStr "premium_100" ] →
      rejected it
  | rejected_flyers (qty : Z) :
      product it = "flyers" →
      py_int (dict_get (options it) "quantity") = Ok qty →
      dict_get (options it) "size" ∉ [ VStr "A5"; VStr "A4" ] →
      rejected it
  | rejected_custom_mug (qty : Z) :
      product it = "custom_mug" →
      py_int (dict_get (options it) "quantity") = Ok qty →
      qty ∉ [1; 2; 4] →
      rejected it.

End Pricing.

Definition sum_Z (l : list Z) : Z := foldr Z.add 0 l.

(** The running sum of the loop: the amounts added one by one, from the
    left, each addition rounded. *)
Definition running_sum (start : double) (l : list double) : double :=
  foldl fadd start l.

Definition quote_of (lines : list LineItem) (office : bool) : Quote :=
  let subtotal := running_sum (Fin 0) (li_line_total <$> lines) in
  let delivery_fee := if float_gt_int subtotal 300 then 0 else 35 in
  {| q_items := lines; q_subtotal := subtotal; q_platform_fee := 10;
     q_delivery_fee := delivery_fee;
     q_total := fadd (fadd subtotal (Fin 10)) (Fin delivery_fee);
     q_contains_office_visiting_cards := office |}.

(** The value of a finite double. *)
Definition double_value (x : double) : option Z :=
  match x with
  | Fin z => Some z
  | NegZero => Some 0
  | _ => None
  end.

Definition value_of (x : double) : Z := default 0 (double_value x).


(** ** The pricing tables of section 4.1 of the specification

    One row per product and option combination, with the option names of
    [schemas.py] and the option values as they are listed.  The
    document-printing table is the 12-entry table [prices]; its price is per
    page. *)

Definition table_4_1 : list (string * list (string * pyval) * Z) :=
  [ ("visiting_cards", [("paper", VStr "economy_250_matte"); ("quantity", VInt 50)], 150);
    ("visiting_cards", [("paper", VStr "economy_250_matte"); ("quantity", VInt 100)], 250);
    ("visiting_cards", [("paper", VStr "premium_300_matte"); ("quantity", VInt 50)], 250);
    ("visiting_cards", [("paper", VStr "premium_300_matte"); ("quantity", VInt 100)], 400);
    ("visiting_cards", [("paper", VStr "premium_300_gloss"); ("quantity", VInt 50)], 250);
    ("visiting_cards", [("paper", VStr "premium_300_gloss"); ("quantity", VInt 100)], 400);
    ("letterheads", [("gsm", VInt 100); ("quantity", VInt 100)], 200);
    ("letterheads", [("gsm", VInt 100); ("quantity", VInt 200)], 350);
    ("letterheads", [("gsm", VInt 130); ("quantity", VInt 100)], 260);
    ("letterheads", [("gsm", VInt 130); ("quantity", VInt 200)], 450);
    ("envelopes", [("type", VStr "standard_80"); ("quantity", VInt 100)], 200);
    ("envelopes", [("type", VStr "standard_80"); ("quantity", VInt 200)], 350);
    ("envelopes", [("type", VStr "premium_100"); ("quantity", VInt 100)], 260);
    ("envelopes", [("type", VStr "premium_100"); ("quantity", VInt 200)], 450);
    ("flyers", [("size", VStr "A5"); ("quantity", VInt 50)], 250);
    ("flyers", [("size", VStr "A5"); ("quantity", VInt 100)], 400);
    ("flyers", [("size", VStr "A4"); ("quantity", VInt 50)], 350);
    ("flyers", [("size", VStr "A4"); ("quantity", VInt 100)], 600);
    ("posters", [("quantity", VInt 1)], 80);
    ("posters", [("quantity", VInt 10)], 700);
    ("custom_mug", [("quantity", VInt 1)], 299);
    ("custom_mug", [("quantity", VInt 2)], 550);
    ("custom_mug", [("quantity", VInt 4)], 1040) ].

(** The options of a line carry the values of a row. *)
Definition row_applies (row : list (string * pyval)) (opts : Dict) : Prop :=
  Forall (λ kv, opts !! kv.1 = Some kv.2) row.

(** [listed prod opts price]: section 4.1 lists [price] as the unit price of
    product [prod] with options [opts].  The page count of a document is its
    [pages] option, 1 when the option is not given. *)
Inductive listed : string → Dict → Z → Prop :=
  | listed_document (opts : Dict) (c s : string) (g per_page n : Z) :
      (c, s, g, per_page) ∈ prices →
      opts !! "color" = Some (VStr c) →
      opts !! "size" = Some (VStr s) →
      opts !! "gsm" = Some (VInt g) →
      dict_get_default opts "pages" (VInt 1) = VInt n →
      listed "document_printing" opts (per_page * n)
  | listed_row (prod : string) (row : list (string * pyval)) (opts : Dict) (price : Z) :
      (prod, row, price) ∈ table_4_1 →
      row_applies row opts →
      listed prod opts price.

(** The add-on surcharges of section 4.2. *)
Definition spiral_surcharge (prod : string) (s : option SpiralBinding) : Z :=
  match s with
  | None => 0
  | Some s =>
      if bool_decide (prod = "document_printing") then
        match s with up_to_80 => 30 | from_81_to_150 => 40 end
      else 0
  end.

Definition lamination_surcharge (l : option Lamination) : Z :=
  match l with
  | None => 0
  | Some lam_ID => 15
  | Some lam_A4 => 40
  | Some lam_A3 => 60
  end.

Definition addon_surcharge (prod : string) (a : option AddOns) : Z :=
  match a with
  | None => 0
  | Some a =>
      spiral_surcharge prod (spiral_binding a) + lamination_surcharge (lamination a)
  end.

(** ** Sessions, checkout and order lookup ([main.py], "Helpers" and "Orders") *)

(** [schemas.Address]. *)
Record Address : Type := {
  label : option string;
  address_line : string;
  city : string;
  pincode : string;
  is_default : bool
}.

(** [schemas.Session], as stored in the [session] collection. *)
Record Session : Type := {
  session_user_id : string;
  token : string;
  expires_at : Z
}.

Inductive OrderStatus : Type :=
  | Placed
  | In_Printing
  | Ready_for_Dispatch
  | Completed.

(** The [pricing_breakdown] dict built by [place_order]. *)
Record PricingBreakdown : Type := {
  pb_items : list LineItem;
  pb_subtotal : double;
  pb_platform_fee : Z;
  pb_delivery_fee : Z
}.

(** [schemas.Order]. *)
Record Order : Type := {
  user_id : string;
  items : list CartItem;
  pricing_breakdown : PricingBreakdown;
  total : double;
  status : OrderStatus;
  address : Address;
  contains_office_visiting_cards : bool;
  whatsapp_link : option string
}.

(** [CheckoutPayload]. *)
Record CheckoutPayload : Type := {
  payload_items : list CartItem;
  payload_address : Address;
  payment_method : string;
  payload_token : option string
}.

(** The dict returned by [place_order]. *)
Record Receipt : Type := {
  r_order_id : string;
  r_total : double;
  r_status : string;
  r_whatsapp_link : option string;
  r_message : option string
}.

(** [s.replace('+', '')]. *)
Fixpoint remove_plus (s : string) : string :=
  match s with
  | EmptyString => EmptyString
  | String c rest =>
      if Ascii.eqb c "+"%char then remove_plus rest else String c (remove_plus rest)
  end.

(** [sub in s] on strings. *)
Definition substring_of (sub s : string) : Prop :=
  ∃ before after, s = before +:+ sub +:+ after.

Section Orders.

Context (int_of_str : string → option Z).

(** [bson.ObjectId]: the type of document ids, the constructor applied to a
    [str] ([None] when it raises) and [str(oid)]. *)
Context {ObjectId : Type} `{EqDecision ObjectId}.
Context (ObjectId_of_str : string → option ObjectId).
Context (str_of_ObjectId : ObjectId → string).

(** A document of the [user] collection: [schemas.User] and its [_id]. *)
Record User : Type := {
  user__id : ObjectId;
  full_name : string;
  mobile : string;
  email : string;
  password_hash : string;
  addresses : list Address
}.

(** A document of the [order] collection. *)
Record OrderDoc : Type := {
  order__id : ObjectId;
  order : Order
}.

(** The three collections of [db] that the checkout path touches, each in
    its natural order. *)
Record Database : Type := {
  db_user : list User;
  db_session : list Session;
  db_order : list OrderDoc
}.

(** [to_object_id]: any exception of the constructor becomes [None]. *)
Definition to_object_id (value : string) : option ObjectId :=
  ObjectId_of_str value.

Definition unauthorized {A : Type} (detail : string) : result A :=
  Raise (HTTPException 401 detail).

(** [not token]: [None] and the empty string are both falsy. *)
Definition token_absent (tok : option string) : bool :=
  match tok with
  | None => true
  | Some t => bool_decide (t = "")
  end.

Definition auth_user (db : Database) (tok : option string) : result User :=
  if token_absent tok then unauthorized "Not authenticated"
  else
    let tok := default "" tok in
    match find (λ sess, String.eqb (token sess) tok) (db_session db) with
    | None => unauthorized "Invalid session"
    | Some sess =>
        let oid := to_object_id (session_user_id sess) in
        let user :=
          match oid with
          | Some oid => find (λ u, bool_decide (user__id u = oid)) (db_user db)
          | None => None
          end in
        match user with
        | None => unauthorized "User not found"
        | Some user => Ok user
        end
    end.

(** Modelled from the spec: [database.create_document] is imported by
    [main.py] but is not among the sources.  Section 6: "Document create:
    given a collection name and a record, persist it and return a generated
    id."  The generated id is the argument [fresh]; this is the instance for
    the [order] collection. *)
Definition create_document (fresh : ObjectId) (o : Order) (db : Database)
  : string * Database :=
  (str_of_ObjectId fresh,
   {| db_user := db_user db;
      db_session := db_session db;
      db_order := db_order db ++ [ {| order__id := fresh; order := o |} ] |}).

Definition set_whatsapp_link (link : string) (o : Order) : Order :=
  {| user_id := user_id o; items := items o;
     pricing_breakdown := pricing_breakdown o; total := total o;
     status := status o; address := address o;
     contains_office_visiting_cards := contains_office_visiting_cards o;
     whatsapp_link := Some link |}.

(** [db.order.update_one({"_id": oid}, {"$set": {"whatsapp_link": link}})]:
    the first document with that [_id] is updated; a filter on [None]
    matches no stored document. *)
Fixpoint update_one (oid : option ObjectId) (link : string) (docs : list OrderDoc)
  : list OrderDoc :=
  match docs with
  | [] => []
  | d :: rest =>
      if bool_decide (Some (order__id d) = oid) then
        {| order__id := order__id d; order := set_whatsapp_link link (order d) |} :: rest
      else d :: update_one oid link rest
  end.

Definition default_admin_whatsapp : string := "+911234567890".

Definition office_message : string :=
  "We’ll confirm your office visiting card design with you on WhatsApp before printing.".

(** [place_order].  [admin_whatsapp] is the environment variable
    [ADMIN_WHATSAPP] and [fresh] the id the store generates for the new
    document.  The second component is the store after the call. *)
Definition place_order (admin_whatsapp : option string) (fresh : ObjectId)
    (db : Database) (payload : CheckoutPayload) : result Receipt * Database :=
  match auth_user db (payload_token payload) with
  | Raise e => (Raise e, db)
  | Ok user =>
      match compute_price int_of_str (payload_items payload) with
      | Raise e => (Raise e, db)
      | Ok pricing =>
          let order_model :=
            {| user_id := str_of_ObjectId (user__id user);
               items := payload_items payload;
               pricing_breakdown :=
                 {| pb_items := q_items pricing;
                    pb_subtotal := q_subtotal pricing;
                    pb_platform_fee := q_platform_fee pricing;
                    pb_delivery_fee := q_delivery_fee pricing |};
               total := q_total pricing;
               status := Placed;
               address := payload_address payload;
               contains_office_visiting_cards :=
                 q_contains_office_visiting_cards pricing;
               whatsapp_link := None |} in
          let '(order_id, db) := create_document fresh order_model db in
          let '(link, db) :=
            if q_contains_office_visiting_cards pricing then
              let admin_number := default default_admin_whatsapp admin_whatsapp in
              let text :=
                "Order ID: " +:+ order_id +:+ "%0AUser: " +:+ full_name user
                +:+ " (" +:+ mobile user
                +:+ ")%0AProduct: Office visiting card%0ADetails: see admin panel" in
              let link :=
                "https://wa.me/" +:+ remove_plus admin_number +:+ "?text=" +:+ text in
              (Some link,
               {| db_user := db_user db;
                  db_session := db_session db;
                  db_order := update_one (to_object_id order_id) link (db_order db) |})
            else (None, db) in
          (Ok {| r_order_id := order_id;
                 r_total := q_total pricing;
                 r_status := "Order placed";
                 r_whatsapp_link := link;
                 r_message :=
                   if q_contains_office_visiting_cards pricing
                   then Some office_message else None |},
           db)
      end
  end.

Definition not_found {A : Type} : result A :=
  Raise (HTTPException 404 "Order not found").

(** [get_order]: the stored document with [_id] replaced by its string
    form under the key [id]. *)
Definition get_order (db : Database) (order_id : string) (tok : option string)
  : result (string * Order) :=
  user ← auth_user db tok;
  let oid := to_object_id order_id in
  let uid := str_of_ObjectId (user__id user) in
  match find (λ d, bool_decide (Some (order__id d) = oid)
                   && String.eqb (user_id (order d)) uid) (db_order db) with
  | None => not_found
  | Some doc => Ok (str_of_ObjectId (order__id doc), order doc)
  end.

(** The ways a token fails to name a user: it is absent, no session
    carries it, or the first session that carries it names a user that is
    not in the [user] collection. *)
Inductive token_refused (db : Database) : option string → Prop :=
  | refused_absent (tok : option string) :
      token_absent tok = true →
      token_refused db tok
  | refused_unknown (t : string) :
      Forall (λ sess, token sess ≠ t) (db_session db) →
      token_refused db (Some t)
  | refused_dangling (t : string) (sess : Session) :
      find (λ sess, String.eqb (token sess) t) (db_session db) = Some sess →
      Forall (λ u, Some (user__id u) ≠ to_object_id (session_user_id sess))
             (db_user db) →
      token_refused db (Some t).

End Orders.

Arguments User ObjectId : clear implicits.
Arguments OrderDoc ObjectId : clear implicits.
Arguments Database ObjectId : clear implicits.

(** ** Accounts and order listing ([main.py], "Auth Routes" and [list_orders]) *)

(** [RegisterPayload]. *)
Record RegisterPayload : Type := {
  reg_full_name : string;
  reg_mobile : string;
  reg_email : string;
  reg_password : string;
  reg_address_line : string;
  reg_city : string;
  reg_pincode : string
}.

(** [LoginPayload]: [identifier] is an email or a mobile number. *)
Record LoginPayload : Type := {
  identifier : string;
  password : string
}.

(** The ["user"] dict of the answers of [register], [login] and [me]. *)
Record Profile : Type := {
  profile_id : string;
  profile_full_name : string;
  profile_email : string;
  profile_mobile : string;
  profile_addresses : list Address
}.

(** The dict returned by [register] and [login]. *)
Record AuthResponse : Type := {
  response_token : string;
  response_user : Profile
}.

Section Accounts.

(** [hash_password]: the hexadecimal SHA-256 digest of the password, a
    function of [hashlib]. *)
Context (hash_password : string → string).

Context {ObjectId : Type} `{EqDecision ObjectId}.
Context (ObjectId_of_str : string → option ObjectId).
Context (str_of_ObjectId : ObjectId → string).

Definition profile_of (user : User ObjectId) : Profile :=
  {| profile_id := str_of_ObjectId (user__id user);
     profile_full_name := full_name user;
     profile_email := email user;
     profile_mobile := mobile user;
     profile_addresses := addresses user |}.

(** Modelled from the spec: [database.create_document] for the [user]
    collection (section 6, "Document create").  The document carries the
    generated id, which is returned in its string form. *)
Definition create_user_document (user : User ObjectId) (db : Database ObjectId)
  : string * Database ObjectId :=
  (str_of_ObjectId (user__id user),
   {| db_user := db_user db ++ [user];
      db_session := db_session db;
      db_order := db_order db |}).

(** Modelled from the spec: [database.create_document] for the [session]
    collection.  Neither caller keeps the id of the session document, and
    no query reads it. *)
Definition create_session_document (sess : Session) (db : Database ObjectId)
  : Database ObjectId :=
  {| db_user := db_user db;
     db_session := db_session db ++ [sess];
     db_order := db_order db |}.

(** [register].  [fresh] is the id generated for the user document and
    [new_token] the result of [generate_token()]. *)
Definition register (fresh : ObjectId) (new_token : string)
    (db : Database ObjectId) (payload : RegisterPayload)
  : result AuthResponse * Database ObjectId :=
  match find (λ u, String.eqb (email u) (reg_email payload)
                   || String.eqb (mobile u) (reg_mobile payload)) (db_user db) with
  | Some _ => (Raise (HTTPException 400 "Account already exists"), db)
  | None =>
      let address :=
        {| label := Some "Default"; address_line := reg_address_line payload;
           city := reg_city payload; pincode := reg_pincode payload;
           is_default := true |} in
      let user :=
        {| user__id := fresh;
           full_name := reg_full_name payload;
           mobile := reg_mobile payload;
           email := reg_email payload;
           password_hash := hash_password (reg_password payload);
           addresses := [address] |} in
      let '(user_id, db) := create_user_document user db in
      let token := new_token in
      let session :=
        {| session_user_id := user_id; token := token; expires_at := 0 |} in
      let db := create_session_document session db in
      (Ok {| response_token := token;
             response_user :=
               {| profile_id := user_id; profile_full_name := full_name user;
                  profile_email := email user; profile_mobile := mobile user;
                  profile_addresses := [address] |} |},
       db)
  end.

(** [login]. *)
Definition login (new_token : string) (db : Database ObjectId) (payload : LoginPayload)
  : result AuthResponse * Database ObjectId :=
  let hashed := hash_password (password payload) in
  match find (λ u, String.eqb (password_hash u) hashed
                   && (String.eqb (email u) (identifier payload)
                       || String.eqb (mobile u) (identifier payload)))
             (db_user db) with
  | None => (Raise (HTTPException 401 "Invalid credentials"), db)
  | Some user =>
      let token := new_token in
      let session :=
        {| session_user_id := str_of_ObjectId (user__id user); token := token;
           expires_at := 0 |} in
      let db := create_session_document session db in
      (Ok {| response_token := token; response_user := profile_of user |}, db)
  end.

(** [me]. *)
Definition me (db : Database ObjectId) (tok : option string) : result Profile :=
  user ← auth_user ObjectId_of_str db tok;
  Ok (profile_of user).

(** [cursor.sort("created_at", -1)]: the documents of the cursor in another
    order.  The field [created_at] is written by [database.create_document]
    and is not part of [schemas.Order]. *)
Context (sort_created_at_desc : list (OrderDoc ObjectId) → list (OrderDoc ObjectId)).

(** [list_orders]: each document with [_id] replaced by its string form
    under the key [id]. *)
Definition list_orders (db : Database ObjectId) (tok : option string)
  : result (list (string * Order)) :=
  user ← auth_user ObjectId_of_str db tok;
  let uid := str_of_ObjectId (user__id user) in
  let docs :=
    sort_created_at_desc
      (List.filter (λ d, String.eqb (user_id (order d)) uid) (db_order db)) in
  Ok ((λ d, (str_of_ObjectId (order__id d), order d)) <$> docs).

(** No two users share an email address or a mobile number. *)
Definition unique_contacts (db : Database ObjectId) : Prop :=
  NoDup (email <$> db_user db) ∧ NoDup (mobile <$> db_user db).

End Accounts.

(** ** Instances of the library functions and sample data

    [int_of_digits] reads a non-empty run of ASCII digits and
    [ObjectId_of_hex] a text of 24 hexadecimal digits, as the builtins do on
    such texts; the identifier is kept in its lower-case string form.  Both
    refuse every other text, among them the signed, padded and underscored
    literals that [int] reads and the texts with blanks that [ObjectId]
    reads: they are stand-ins for running the definitions on well-formed
    inputs, and every theorem of the development is stated for arbitrary
    functions in their place. *)

Definition is_digit (c : ascii) : bool :=
  (48 <=? nat_of_ascii c)%nat && (nat_of_ascii c <=? 57)%nat.

Fixpoint digits_value (acc : Z) (s : string) : option Z :=
  match s with
  | EmptyString => Some acc
  | String c rest =>
      if is_digit c then
        digits_value (10 * acc + (Z.of_nat (nat_of_ascii c) - 48)) rest
      else None
  end.

Definition int_of_digits (s : string) : option Z :=
  match s with
  | EmptyString => None
  | _ => digits_value 0 s
  end.

Definition lower_hex (c : ascii) : option ascii :=
  let n := nat_of_ascii c in
  if is_digit c then Some c
  else if (97 <=? n)%nat && (n <=? 102)%nat then Some c
  else if (65 <=? n)%nat && (n <=? 70)%nat then Some (ascii_of_nat (n + 32))
  else None.

Fixpoint lower_hex_string (s : string) : option string :=
  match s with
  | EmptyString => Some EmptyString
  | String c rest =>
      c' ← lower_hex c; rest' ← lower_hex_string rest; Some (String c' rest')
  end.

Definition ObjectId_of_hex (s : string) : option string :=
  if (String.length s =? 24)%nat then lower_hex_string s else None.

(** The doubles of this development read as IEEE 754 binary64 values of the
    Standard Library's [SpecFloat] (53 bits of precision, exponents up to
    1024), to compare [fadd], [fmul] and [float_of_int] with its [SFadd],
    [SFmul] and [binary_normalize]. *)
Definition to_spec (x : double) : SpecFloat.spec_float :=
  match x with
  | Fin z => SpecFloat.binary_normalize 53 1024 z 0 false
  | NegZero => SpecFloat.S754_zero true
  | Infinite s => SpecFloat.S754_infinity s
  | NotANumber => SpecFloat.S754_nan
  end.

Definition same_spec (x y : SpecFloat.spec_float) : bool :=
  match x, y with
  | SpecFloat.S754_zero s, SpecFloat.S754_zero t => Bool.eqb s t
  | SpecFloat.S754_infinity s, SpecFloat.S754_infinity t => Bool.eqb s t
  | SpecFloat.S754_nan, SpecFloat.S754_nan => true
  | SpecFloat.S754_finite s m e, SpecFloat.S754_finite t n f =>
      Bool.eqb s t && Pos.eqb m n && (e =? f)
  | _, _ => false
  end.

Definition agree_add (a b : double) : bool :=
  same_spec (SpecFloat.SFadd 53 1024 (to_spec a) (to_spec b)) (to_spec (fadd a b)).

Definition agree_mul (a b : double) : bool :=
  same_spec (SpecFloat.SFmul 53 1024 (to_spec a) (to_spec b)) (to_spec (fmul a b)).

(** [float_of_int n] is the binary64 value nearest to [n], and raises
    exactly when that is an infinity. *)
Definition agree_float_of_int (n : Z) : bool :=
  match float_of_int n, SpecFloat.binary_normalize 53 1024 n 0 false with
  | Raise _, SpecFloat.S754_infinity _ => true
  | Ok x, SpecFloat.S754_infinity _ => false
  | Ok x, y => same_spec (to_spec x) y
  | Raise _, _ => false
  end.

Definition sample_ints : list Z :=
  [ 0; 1; -1; 3; -3; 10; 35; 80; 300; 2 ^ 53 - 1; 2 ^ 53; - 2 ^ 53; 2 ^ 53 + 1;
    2 ^ 53 + 2; 2 ^ 53 + 3; - (2 ^ 53 + 1); 3 * (2 ^ 53 + 1); 80 * 2 ^ 53;
    2 ^ 54 + 2; 2 ^ 54 + 5; 2 ^ 54 + 6; 10 ^ 20; 10 ^ 23; 10 ^ 30 + 1;
    - 10 ^ 25 + 7; 2 ^ 100 + 2 ^ 47 - 1; 2 ^ 100 + 2 ^ 47; 2 ^ 100 + 2 ^ 47 + 1;
    2 ^ 100 + 3 * 2 ^ 47; 2 ^ 512 + 1; 2 ^ 600 + 2 ^ 560; 7 * 2 ^ 970;
    10 ^ 308; - 10 ^ 308; 2 ^ 1023; 2 ^ 1024 - 2 ^ 971; 2 ^ 1024 - 2 ^ 970 - 1;
    2 ^ 1024 - 2 ^ 970; 2 ^ 1024 - 1; 2 ^ 1024; 10 ^ 400; - 10 ^ 400 ].

(** Both zeros, the infinities, a NaN, and finite doubles below, at and
    above [2^53], up to the largest one. *)
Definition sample_doubles : list double :=
  [ Fin 0; NegZero; Infinite false; Infinite true; NotANumber;
    Fin 1; Fin (-3); Fin 10; Fin 35; Fin 80; Fin (2 ^ 53 - 1); Fin (2 ^ 53);
    Fin (- 2 ^ 53); Fin (2 ^ 53 + 2); Fin (2 ^ 53 + 4); Fin (80 * 2 ^ 53);
    Fin (2 ^ 54 + 4); Fin (2 ^ 100 + 2 ^ 48); Fin (- 2 ^ 600);
    Fin (2 ^ 1023); Fin (2 ^ 1024 - 2 ^ 971); Fin (- (2 ^ 1024 - 2 ^ 971)) ].

Definition no_address : Address :=
  {| label := None; address_line := "12 Press Road"; city := "Pune";
     pincode := "411001"; is_default := true |}.

Definition cart_line (prod : string) (opts : list (string * pyval))
    (a : option AddOns) (qty : Z) : CartItem :=
  {| product := prod; options := list_to_map opts; addons := a;
     quantity := qty; unit_price := None; line_total := None |}.

(** 100 black-and-white A4 pages on 80 gsm: a subtotal of exactly 300. *)
Definition document_100_pages : CartItem :=
  cart_line "document_printing"
    [("color", VStr "bw"); ("size", VStr "A4"); ("gsm", VInt 80); ("pages", VInt 100)]
    None 1.

Definition office_cards : CartItem :=
  cart_line "visiting_cards"
    [("card_type", VStr "office"); ("paper", VStr "economy_250_matte");
     ("quantity", VInt 50)]
    None 1.

Definition personal_cards_75 : CartItem :=
  cart_line "visiting_cards"
    [("card_type", VStr "personal"); ("paper", VStr "economy_250_matte");
     ("quantity", VInt 75)]
    None 1.

(** [2^53 + 1] pages, and [2^53 + 1] copies of one poster. *)
Definition document_many_pages : CartItem :=
  cart_line "document_printing"
    [("color", VStr "bw"); ("size", VStr "A4"); ("gsm", VInt 80);
     ("pages", VInt (2 ^ 53 + 1))]
    None 1.

Definition posters_many : CartItem :=
  cart_line "posters" [("quantity", VInt 1)] None (2 ^ 53 + 1).

Definition mugs_3 : CartItem :=
  cart_line "custom_mug" [("quantity", VInt 3)] None 1.

Definition posters_10 : CartItem :=
  cart_line "posters" [("quantity", VInt 10)]
    (Some {| spiral_binding := Some up_to_80; lamination := Some lam_A3 |}) 2.

Definition alice : User string :=
  {| user__id := "64b7f0c2a1d3e4f5a6b7c8d9"; full_name := "Alice Rao";
     mobile := "9876543210"; email := "alice@example.com";
     password_hash := "5e884898"; addresses := [no_address] |}.

Definition bob : User string :=
  {| user__id := "64b7f0c2a1d3e4f5a6b7c8da"; full_name := "Bob Iyer";
     mobile := "9123456780"; email := "bob@example.com";
     password_hash := "6b3a55e0"; addresses := [] |}.

Definition bobs_order : OrderDoc string :=
  {| order__id := "64b7f0c2a1d3e4f5a6b7c8e0";
     order :=
       {| user_id := "64b7f0c2a1d3e4f5a6b7c8da"; items := [mugs_3];
          pricing_breakdown :=
            {| pb_items := []; pb_subtotal := Fin 0; pb_platform_fee := 10;
               pb_delivery_fee := 35 |};
          total := Fin 45; status := Placed; address := no_address;
          contains_office_visiting_cards := false; whatsapp_link := None |} |}.

Definition sample_db : Database string :=
  {| db_user := [alice; bob];
     db_session :=
       [ {| session_user_id := "64B7F0C2A1D3E4F5A6B7C8D9"; token := "tok-alice";
            expires_at := 0 |};
         {| session_user_id := "64b7f0c2a1d3e4f5a6b7c8ff"; token := "tok-gone";
            expires_at := 0 |};
         {| session_user_id := "64b7f0c2a1d3e4f5a6b7c8da"; token := "tok-bob";
            expires_at := 0 |} ];
     db_order := [bobs_order] |}.

Definition checkout (items : list CartItem) (tok : option string) : CheckoutPayload :=
  {| payload_items := items; payload_address := no_address;
     payment_method := "cod"; payload_token := tok |}.


(** The quote of a one-line cart whose line has the given unit price and
    add-on cost, for amounts small enough to be exact. *)
Definition single_line_quote (it : CartItem) (unit addon : Z) (office : bool) : Quote :=
  let line_total := (unit + addon) * quantity it in
  let delivery := if 300 <? line_total then 0 else 35 in
  {| q_items :=
       [ {| li_product := product it; li_options := options it;
            li_quantity := quantity it; li_unit_price := Fin unit;
            li_addon_cost := Fin addon; li_line_total := Fin line_total |} ];
     q_subtotal := Fin line_total; q_platform_fee := 10; q_delivery_fee := delivery;
     q_total := Fin (line_total + 10 + delivery);
     q_contains_office_visiting_cards := office |}.

(** A stand-in for the digest in the sample runs. *)
Definition sample_hash (s : string) : string := "sha256:" +:+ s.

Definition carol_payload : RegisterPayload :=
  {| reg_full_name := "Carol Nair"; reg_mobile := "9000000001";
     reg_email := "carol@example.com"; reg_password := "s3cret";
     reg_address_line := "4 Ink Lane"; reg_city := "Kochi";
     reg_pincode := "682001" |}.

Definition dave : User string :=
  {| user__id := "64b7f0c2a1d3e4f5a6b7c8db"; full_name := "Dave Roy";
     mobile := "9000000002"; email := "dave@example.com";
     password_hash := sample_hash "hunter2"; addresses := [] |}.

Definition accounts_db : Database string :=
  {| db_user := [alice; bob; dave];
     db_session := db_session sample_db;
     db_order := [bobs_order] |}.

(** * Properties *)

Ltac case_result :=
  match goal with
  | |- context [mbind _ ?r] => destruct r as [?|?] eqn:?; cbn [mbind result_bind]
  end.

Ltac not_in_list H :=
  repeat (apply not_elem_of_cons in H as [? H]).

Ltac split_elem_of :=
  repeat match goal with
         | H : _ ∈ _ :: _ |- _ => apply elem_of_cons in H as [H|H]
         | H : _ ∈ [] |- _ => by apply elem_of_nil in H
         end.

Ltac split_row :=
  repeat match goal with
         | H : Forall _ (_ :: _) |- _ => apply Forall_cons in H as [? H]
         end.

(** ** Doubles: when the arithmetic is exact *)

Lemma two_53_in_range : 2 ^ 53 < 2 ^ 1024.
Proof. reflexivity. Qed.

Lemma round53_exact (z : Z) : Z.abs z ≤ 2 ^ 53 → round53 z = z.
Proof.
  intros Hz. unfold round53.
  destruct (Z.ltb_spec (Z.abs z) (2 ^ 53)) as [|Hge]; [done|].
  assert (Hz' : z = 2 ^ 53 ∨ z = - 2 ^ 53) by lia.
  destruct Hz' as [-> | ->]; vm_compute; reflexivity.
Qed.

Lemma float_of_int_exact (z : Z) : Z.abs z ≤ 2 ^ 53 → float_of_int z = Ok (Fin z).
Proof.
  intros Hz. unfold float_of_int. rewrite round53_exact by done.
  pose proof two_53_in_range.
  destruct (Z.ltb_spec (Z.abs z) (2 ^ 1024)); [done | lia].
Qed.

Lemma round_double_exact (z : Z) : Z.abs z ≤ 2 ^ 53 → round_double z = Fin z.
Proof.
  intros Hz. unfold round_double. rewrite round53_exact by done.
  pose proof two_53_in_range.
  destruct (Z.ltb_spec (Z.abs z) (2 ^ 1024)); [done | lia].
Qed.

Lemma fadd_exact (a b : Z) : Z.abs (a + b) ≤ 2 ^ 53 → fadd (Fin a) (Fin b) = Fin (a + b).
Proof. intros Hab. cbn. by apply round_double_exact. Qed.

Lemma float_of_int_raises (n : Z) (e : exn) :
  float_of_int n = Raise e → e = OverflowError.
Proof.
  unfold float_of_int. destruct (Z.abs (round53 n) <? 2 ^ 1024); congruence.
Qed.

Lemma abs_sgn_mul (z m : Z) : z ≠ 0 → 0 ≤ m → Z.abs (Z.sgn z * m) = m.
Proof.
  intros Hz Hm. rewrite Z.abs_mul, (Z.abs_eq m) by done.
  destruct z; [done| |]; cbn [Z.sgn Z.abs]; lia.
Qed.

(** The integers that round to a finite double are those of magnitude
    below [2^1024 - 2^970], half a step above the largest double. *)
Lemma round53_in_range (z : Z) :
  Z.abs (round53 z) < 2 ^ 1024 ↔ Z.abs z < 2 ^ 1024 - 2 ^ 970.
Proof.
  unfold round53.
  assert (H53 : 2 ^ 53 < 2 ^ 1024 - 2 ^ 970) by reflexivity.
  destruct (Z.ltb_spec (Z.abs z) (2 ^ 53)) as [Hlt|Hge]; [lia|].
  set (n := Z.abs z) in *.
  assert (Hn : 0 < n) by lia.
  pose proof (Z.log2_spec n Hn) as [Hlo Hhi].
  assert (Hl : 53 ≤ Z.log2 n) by (apply Z.log2_le_pow2; lia).
  set (l := Z.log2 n) in *.
  set (k := l - 52).
  assert (Hk : 1 ≤ k) by lia.
  assert (Hpk : 0 < 2 ^ k) by (apply Z.pow_pos_nonneg; lia).
  assert (Hsplit : 2 ^ l = 2 ^ 52 * 2 ^ k).
  { rewrite <- Z.pow_add_r by lia. f_equal. lia. }
  assert (Hsplit' : 2 ^ Z.succ l = 2 ^ 53 * 2 ^ k).
  { rewrite <- Z.pow_add_r by lia. f_equal. lia. }
  pose proof (Z.div_mod n (2 ^ k) ltac:(lia)) as Hdm.
  pose proof (Z.mod_pos_bound n (2 ^ k) Hpk) as Hr.
  set (q := n / 2 ^ k) in *. set (r := n mod 2 ^ k) in *.
  assert (Hq : 2 ^ 52 ≤ q < 2 ^ 53) by nia.
  set (q' := if (2 ^ (k - 1) <? r) || ((r =? 2 ^ (k - 1)) && Z.odd q)
             then q + 1 else q).
  assert (Hq' : q ≤ q' ≤ q + 1) by (unfold q'; destruct (_ || _); lia).
  rewrite abs_sgn_mul by (try nia; lia).
  destruct (Z.le_gt_cases l 1022) as [Hl1|Hl1];
    [|destruct (Z.le_gt_cases 1024 l) as [Hl2|Hl2]].
  - assert (2 ^ k ≤ 2 ^ 970) by (apply Z.pow_le_mono_r; lia).
    assert (2 ^ Z.succ l ≤ 2 ^ 1023) by (apply Z.pow_le_mono_r; lia).
    assert (E1 : 2 ^ 1024 = 2 ^ 54 * 2 ^ 970) by reflexivity.
    assert (E2 : 2 ^ 1023 = 2 ^ 53 * 2 ^ 970) by reflexivity.
    split; intros _; nia.
  - assert (2 ^ 972 ≤ 2 ^ k) by (apply Z.pow_le_mono_r; lia).
    assert (2 ^ 1024 ≤ 2 ^ l) by (apply Z.pow_le_mono_r; lia).
    assert (E1 : 2 ^ 1024 = 2 ^ 52 * 2 ^ 972) by reflexivity.
    assert (0 < 2 ^ 970) by reflexivity.
    split; intros; nia.
  - assert (Hl3 : l = 1023) by lia.
    assert (Hk3 : k = 971) by lia.
    clearbody q r k l n. subst l k.
    change (971 - 1) with 970 in *.
    assert (E1 : 2 ^ 1024 = 2 ^ 53 * 2 ^ 971) by reflexivity.
    assert (E2 : 2 ^ 971 = 2 * 2 ^ 970) by reflexivity.
    assert (0 < 2 ^ 970) by reflexivity.
    unfold q' in *. clear q'.
    destruct (Z.eq_dec q (2 ^ 53 - 1)) as [Hq1|Hq1].
    + destruct (Z.ltb_spec (2 ^ 970) r) as [Hr1|Hr1]; cbn [orb] in *.
      * split; intros; nia.
      * destruct (Z.eqb_spec r (2 ^ 970)) as [Hr2|Hr2]; cbn [andb] in *.
        -- rewrite Hq1. change (Z.odd (2 ^ 53 - 1)) with true. split; intros; nia.
        -- split; intros; nia.
    + split; intros; [nia|].
      destruct (_ || _); nia.
Qed.

Lemma float_of_int_in_range (n : Z) :
  Z.abs n < 2 ^ 1024 - 2 ^ 970 → float_of_int n = Ok (Fin (round53 n)).
Proof.
  intros Hn%round53_in_range. unfold float_of_int.
  destruct (Z.ltb_spec (Z.abs (round53 n)) (2 ^ 1024)); [done | lia].
Qed.

Lemma float_of_int_overflow (n : Z) :
  2 ^ 1024 - 2 ^ 970 ≤ Z.abs n → float_of_int n = Raise OverflowError.
Proof.
  intros Hn. unfold float_of_int.
  destruct (Z.ltb_spec (Z.abs (round53 n)) (2 ^ 1024)) as [Hlt|]; [|done].
  apply round53_in_range in Hlt. lia.
Qed.

Lemma float_of_int_raise_iff (n : Z) (e : exn) :
  float_of_int n = Raise e ↔ 2 ^ 1024 - 2 ^ 970 ≤ Z.abs n ∧ e = OverflowError.
Proof.
  destruct (Z.lt_ge_cases (Z.abs n) (2 ^ 1024 - 2 ^ 970)) as [Hlt|Hge].
  - rewrite float_of_int_in_range by done. split; [done | lia].
  - rewrite float_of_int_overflow by done. split.
    + by intros [= <-].
    + by intros [_ ->].
Qed.

Lemma float_add_int_small (x : double) (n : Z) :
  Z.abs n ≤ 2 ^ 53 → float_add_int x n = Ok (fadd x (Fin n)).
Proof. intros Hn. unfold float_add_int. by rewrite float_of_int_exact. Qed.

Lemma running_sum_cons (x d : double) (ds : list double) :
  running_sum x (d :: ds) = running_sum (fadd x d) ds.
Proof. reflexivity. Qed.

Lemma sum_Z_cons (z : Z) (zs : list Z) : sum_Z (z :: zs) = z + sum_Z zs.
Proof. reflexivity. Qed.

Lemma sum_Z_abs_nonneg (zs : list Z) : 0 ≤ sum_Z (Z.abs <$> zs).
Proof. induction zs as [|z zs IH]; [done|]. rewrite fmap_cons, sum_Z_cons. lia. Qed.

Lemma running_sum_exact (ds : list double) (zs : list Z) (s : Z) :
  Forall2 (λ d z, double_value d = Some z) ds zs →
  Z.abs s + sum_Z (Z.abs <$> zs) ≤ 2 ^ 53 →
  running_sum (Fin s) ds = Fin (s + sum_Z zs).
Proof.
  intros Hall. revert s.
  induction Hall as [|d z ds zs Hd _ IH]; intros s Hs.
  - cbn. by rewrite Z.add_0_r.
  - rewrite fmap_cons, sum_Z_cons in Hs. rewrite running_sum_cons, sum_Z_cons.
    pose proof (sum_Z_abs_nonneg zs).
    destruct d as [a| | |]; cbn in Hd; simplify_eq.
    + rewrite fadd_exact by lia. rewrite IH by lia. f_equal; lia.
    + change (fadd (Fin s) NegZero) with (Fin s).
      rewrite IH by lia. f_equal; lia.
Qed.

(** ** The loop of [compute_price] as a map over the cart *)

Section PricingFacts.

Context (int_of_str : string → option Z).

Abbreviation price_product := (price_product int_of_str).
Abbreviation loop_body := (loop_body int_of_str).
Abbreviation loop := (loop int_of_str).
Abbreviation compute_price := (compute_price int_of_str).
Abbreviation unit_price_of := (unit_price_of int_of_str).
Abbreviation price_line := (price_line int_of_str).
Abbreviation price_lines := (price_lines int_of_str).

Lemma price_product_flag (prod : string) (opts : Dict) (co : bool) :
  price_product prod opts co =
  match price_product prod opts false with
  | Ok (unit, _) =>
      Ok (unit, co || (String.eqb prod "visiting_cards"
                       && py_eq_str (dict_get opts "card_type") "office"))
  | Raise e => Raise e
  end.
Proof.
  unfold price_product.
  repeat match goal with
         | |- context [String.eqb prod ?s] =>
             destruct (String.eqb_spec prod s) as [->|?]; cbn [String.eqb]
         end;
    try (case_result; cbn; rewrite ?orb_false_r; try reflexivity;
         destruct co, (py_eq_str _ _); reflexivity).
  reflexivity.
Qed.

Lemma loop_body_eq (st : LoopState) (it : CartItem) :
  loop_body st it =
  match price_line it with
  | Ok line =>
      Ok {| line_items := line_items st ++ [line];
            subtotal := fadd (subtotal st) (li_line_total line);
            contains_office := contains_office st || office_line it |}
  | Raise e => Raise e
  end.
Proof.
  unfold loop_body, price_line, unit_price_of, office_line, priced_line.
  rewrite price_product_flag.
  destruct (price_product (product it) (options it) false) as [[unit b]|e];
    cbn; [|done].
  by destruct (float_mul_int _ _).
Qed.

Lemma loop_eq (items : list CartItem) (st : LoopState) :
  loop st items =
  match price_lines items with
  | Ok lines =>
      Ok {| line_items := line_items st ++ lines;
            subtotal := running_sum (subtotal st) (li_line_total <$> lines);
            contains_office := contains_office st || existsb office_line items |}
  | Raise e => Raise e
  end.
Proof.
  revert st. induction items as [|it rest IH]; intros st.
  - cbn. rewrite app_nil_r, orb_false_r. by destruct st.
  - cbn [loop price_lines]. rewrite loop_body_eq.
    destruct (price_line it) as [line|e]; cbn [mbind result_bind]; [|done].
    rewrite IH. destruct (price_lines rest) as [lines|e]; cbn; [|done].
    f_equal. f_equal.
    + by rewrite <- app_assoc.
    + by rewrite orb_assoc.
Qed.

Lemma compute_price_eq (items : list CartItem) :
  compute_price items =
  match price_lines items with
  | Ok lines => Ok (quote_of lines (existsb office_line items))
  | Raise e => Raise e
  end.
Proof.
  unfold compute_price. rewrite loop_eq.
  destruct (price_lines items) as [lines|e]; cbn [mbind result_bind]; [|done].
  cbn [subtotal line_items contains_office].
  unfold PLATFORM_FEE, DELIVERY_THRESHOLD, DELIVERY_FEE.
  rewrite float_add_int_small by (pose proof two_53_in_range; vm_compute; discriminate).
  cbn [mbind result_bind].
  unfold quote_of. cbn [app orb].
  destruct (float_gt_int _ 300);
    rewrite float_add_int_small by (vm_compute; discriminate); reflexivity.
Qed.

Lemma price_lines_ok_inv (items : list CartItem) (lines : list LineItem) :
  price_lines items = Ok lines →
  Forall2 (λ it li, ∃ unit, unit_price_of it = Ok unit ∧ priced_line it unit = Ok li)
          items lines.
Proof.
  revert lines. induction items as [|it rest IH]; intros lines; cbn.
  - intros [= <-]. constructor.
  - unfold price_line.
    destruct (unit_price_of it) as [unit|e] eqn:Hu; cbn; [|done].
    destruct (priced_line it unit) as [line|e] eqn:Hl; cbn; [|done].
    destruct (price_lines rest) as [lines'|e]; cbn; [|done].
    intros [= <-]. constructor; eauto.
Qed.

Lemma compute_price_ok_inv (items : list CartItem) (q : Quote) :
  compute_price items = Ok q →
  ∃ lines, price_lines items = Ok lines
           ∧ q = quote_of lines (existsb office_line items).
Proof.
  rewrite compute_price_eq.
  destruct (price_lines items) as [lines|e]; [|done].
  intros [= <-]. eauto.
Qed.

Lemma priced_line_fields (it : CartItem) (unit : double) (li : LineItem) :
  priced_line it unit = Ok li →
  li_product li = product it ∧ li_options li = options it
  ∧ li_quantity li = quantity it ∧ li_unit_price li = unit
  ∧ li_addon_cost li
    = price_addons (model_dump <$> addons it) (product it) (options it)
  ∧ float_mul_int (fadd (li_unit_price li) (li_addon_cost li)) (quantity it)
    = Ok (li_line_total li).
Proof.
  unfold priced_line.
  destruct (float_mul_int _ _) as [t|] eqn:Ht; cbn; [|done].
  intros [= <-]. cbn. done.
Qed.

(** ** Fees and totals *)

(** C10.  The empty cart is priced: no items, subtotal 0, platform fee 10,
    delivery fee 35, total 45, and the office flag is not raised. *)
Theorem compute_price_empty_cart :
  compute_price [] =
  Ok {| q_items := []; q_subtotal := Fin 0; q_platform_fee := 10;
        q_delivery_fee := 35; q_total := Fin 45;
        q_contains_office_visiting_cards := false |}.
Proof. reflexivity. Qed.

(** C3, as amended.  In every quote that [compute_price] returns the
    platform fee is 10; the delivery fee is 0 when the subtotal is strictly
    above 300 and 35 otherwise, so 35 at exactly 300 and for a subtotal that
    is not a number; the total is the double sum
    [(subtotal + platform_fee) + delivery_fee], which is the exact sum when
    the subtotal is an integer of magnitude at most [2^53 - 45]. *)
Theorem compute_price_fees (items : list CartItem) (q : Quote) :
  compute_price items = Ok q →
  q_platform_fee q = 10
  ∧ q_delivery_fee q = (if float_gt_int (q_subtotal q) 300 then 0 else 35)
  ∧ (∀ s, double_value (q_subtotal q) = Some s →
          (300 < s → q_delivery_fee q = 0) ∧ (s ≤ 300 → q_delivery_fee q = 35))
  ∧ (q_subtotal q = Infinite false → q_delivery_fee q = 0)
  ∧ (q_subtotal q = Infinite true ∨ q_subtotal q = NotANumber →
     q_delivery_fee q = 35)
  ∧ q_total q
    = fadd (fadd (q_subtotal q) (Fin (q_platform_fee q))) (Fin (q_delivery_fee q))
  ∧ (∀ s, q_subtotal q = Fin s → Z.abs s ≤ 2 ^ 53 - 45 →
          q_total q = Fin (s + q_platform_fee q + q_delivery_fee q)).
Proof.
  intros (lines & _ & ->)%compute_price_ok_inv.
  unfold quote_of; cbn.
  set (sub := running_sum (Fin 0) (li_line_total <$> lines)).
  split; [done|]. split; [done|]. split; [|split; [|split; [|split]]].
  - intros s Hs. destruct sub as [z| | |]; cbn in Hs |- *; simplify_eq.
    + destruct (Z.ltb_spec 300 s); split; intros; lia.
    + split; intros; lia.
  - by intros ->.
  - by intros [-> | ->].
  - done.
  - intros s -> Hs. cbn [float_gt_int].
    assert (H53 : 2 ^ 53 = 9007199254740992) by reflexivity.
    destruct (300 <? s); rewrite !fadd_exact by lia; f_equal; lia.
Qed.

(** ** Quantity tiers *)

Lemma py_int_no_http (v : pyval) (status : Z) (detail : string) :
  py_int int_of_str v ≠ Raise (HTTPException status detail).
Proof.
  destruct v as [| | |[]| | |]; cbn; try done.
  by destruct (int_of_str s).
Qed.

(** C7.  For posters a quantity of exactly 1 costs 80 and every other
    integer quantity costs 700; [price_posters] never raises an
    [HTTPException]. *)
Theorem price_posters_fallback (opts : Dict) (qty : Z) :
  py_int int_of_str (dict_get opts "quantity") = Ok qty →
  (qty = 1 → price_posters int_of_str opts = Ok (Fin 80))
  ∧ (qty ≠ 1 → price_posters int_of_str opts = Ok (Fin 700))
  ∧ (∀ (opts' : Dict) status detail,
       price_posters int_of_str opts' ≠ Raise (HTTPException status detail)).
Proof.
  intros Hq. unfold price_posters. rewrite Hq. cbn.
  split; [|split].
  - by intros ->.
  - intros Hne. by destruct (Z.eqb_spec qty 1).
  - intros opts' status detail.
    destruct (py_int int_of_str (dict_get opts' "quantity")) eqn:Hq'; cbn; [done|].
    intros [= ->]. by apply py_int_no_http in Hq'.
Qed.

Lemma py_eq_str_true (v : pyval) (s : string) :
  py_eq_str v s = true ↔ v = VStr s.
Proof.
  destruct v; cbn; try (split; done).
  rewrite bool_decide_eq_true. split; congruence.
Qed.

Lemma py_eq_str_false (v : pyval) (s : string) :
  py_eq_str v s = false ↔ v ≠ VStr s.
Proof.
  rewrite <- py_eq_str_true. by destruct (py_eq_str v s).
Qed.

(** C9.  For visiting cards, letterheads, envelopes and flyers the quantity
    is not checked against the two listed values: every integer quantity
    other than the low tier (50, 100, 100 and 50) is priced at the high
    tier, while a paper, gsm, type or size outside the listed values is
    answered with [HTTPException 400]. *)
Theorem tiered_quantity_not_validated (opts : Dict) (qty : Z) :
  py_int int_of_str (dict_get opts "quantity") = Ok qty →
  ( (qty ≠ 50 → dict_get opts "paper" = VStr "economy_250_matte" →
       price_visiting_cards int_of_str opts = Ok (Fin 250))
    ∧ (qty ≠ 50 →
       dict_get opts "paper" ∈ [VStr "premium_300_matte"; VStr "premium_300_gloss"] →
       price_visiting_cards int_of_str opts = Ok (Fin 400))
    ∧ (dict_get opts "paper" ∉ [ VStr "economy_250_matte"; VStr "premium_300_matte";
                                  VStr "premium_300_gloss" ] →
       price_visiting_cards int_of_str opts = invalid_options) )
  ∧ (∀ gsm, py_int int_of_str (dict_get opts "gsm") = Ok gsm →
       (qty ≠ 100 → gsm = 100 → price_letterheads int_of_str opts = Ok (Fin 350))
       ∧ (qty ≠ 100 → gsm = 130 → price_letterheads int_of_str opts = Ok (Fin 450))
       ∧ (gsm ∉ [100; 130] → price_letterheads int_of_str opts = invalid_options))
  ∧ ( (qty ≠ 100 → dict_get opts "type" = VStr "standard_80" →
       price_envelopes int_of_str opts = Ok (Fin 350))
      ∧ (qty ≠ 100 → dict_get opts "type" = VStr "premium_100" →
         price_envelopes int_of_str opts = Ok (Fin 450))
      ∧ (dict_get opts "type" ∉ [VStr "standard_80"; VStr "premium_100"] →
         price_envelopes int_of_str opts = invalid_options) )
  ∧ ( (qty ≠ 50 → dict_get opts "size" = VStr "A5" →
       price_flyers int_of_str opts = Ok (Fin 400))
      ∧ (qty ≠ 50 → dict_get opts "size" = VStr "A4" →
         price_flyers int_of_str opts = Ok (Fin 600))
      ∧ (dict_get opts "size" ∉ [VStr "A5"; VStr "A4"] →
         price_flyers int_of_str opts = invalid_options) ).
Proof.
  intros Hq.
  split; [|split; [|split]].
  - unfold price_visiting_cards. rewrite Hq. cbn. repeat split.
    + intros Hne ->. cbn. by destruct (Z.eqb_spec qty 50).
    + intros Hne [->|[->|[]%elem_of_nil]%elem_of_cons]%elem_of_cons; cbn;
        by destruct (Z.eqb_spec qty 50).
    + intros Hn. not_in_list Hn.
      by repeat match goal with
                | Hv : _ ≠ VStr _ |- _ => apply py_eq_str_false in Hv; rewrite Hv
                end.
  - intros gsm Hg. unfold price_letterheads. rewrite Hg, Hq. cbn. repeat split.
    + intros Hne ->. cbn. by destruct (Z.eqb_spec qty 100).
    + intros Hne ->. cbn. by destruct (Z.eqb_spec qty 100).
    + intros Hn. not_in_list Hn.
      destruct (Z.eqb_spec gsm 100); [done|].
      by destruct (Z.eqb_spec gsm 130).
  - unfold price_envelopes. rewrite Hq. cbn. repeat split.
    + intros Hne ->. cbn. by destruct (Z.eqb_spec qty 100).
    + intros Hne ->. cbn. by destruct (Z.eqb_spec qty 100).
    + intros Hn. not_in_list Hn.
      by repeat match goal with
                | Hv : _ ≠ VStr _ |- _ => apply py_eq_str_false in Hv; rewrite Hv
                end.
  - unfold price_flyers. rewrite Hq. cbn. repeat split.
    + intros Hne ->. cbn. by destruct (Z.eqb_spec qty 50).
    + intros Hne ->. cbn. by destruct (Z.eqb_spec qty 50).
    + intros Hn. not_in_list Hn.
      by repeat match goal with
                | Hv : _ ≠ VStr _ |- _ => apply py_eq_str_false in Hv; rewrite Hv
                end.
Qed.

(** ** Add-ons *)

Lemma price_addons_surcharge (prod : string) (opts : Dict) (a : option AddOns) :
  price_addons (model_dump <$> a) prod opts = Fin (addon_surcharge prod a).
Proof.
  unfold addon_surcharge, spiral_surcharge, price_addons.
  destruct (String.eqb_spec prod "document_printing") as [->|Hne].
  - destruct a as [[[[]|] [[]|]]|]; vm_compute; reflexivity.
  - destruct a as [[[[]|] [[]|]]|]; cbn [spiral_binding lamination];
      rewrite ?bool_decide_eq_false_2 by done; vm_compute; reflexivity.
Qed.

(** C8.  In every quote the add-on cost of a line is its spiral-binding
    surcharge (30 or 40 on a document-printing line, 0 on a line of any other
    product) plus its lamination surcharge (15, 40 or 60, whatever the
    product), and 0 for a line without add-ons. *)
Theorem addon_cost_by_product (items : list CartItem) (q : Quote) :
  compute_price items = Ok q →
  Forall2 (λ it li,
             li_addon_cost li = Fin (addon_surcharge (product it) (addons it))
             ∧ (addons it = None → li_addon_cost li = Fin 0)
             ∧ (product it ≠ "document_printing" →
                li_addon_cost li =
                Fin match addons it with
                    | Some a => lamination_surcharge (lamination a)
                    | None => 0
                    end))
          items (q_items q).
Proof.
  intros (lines & Hlines%price_lines_ok_inv & ->)%compute_price_ok_inv. cbn.
  eapply Forall2_impl; [exact Hlines|].
  intros it li (unit & _ & (_ & _ & _ & _ & -> & _)%priced_line_fields).
  rewrite price_addons_surcharge. repeat split.
  - by intros ->.
  - intros Hne. destruct (addons it) as [a|]; [|done]. cbn.
    unfold spiral_surcharge.
    destruct (spiral_binding a); [|done].
    by rewrite bool_decide_eq_false_2.
Qed.

(** ** The pricing tables *)

Lemma price_document_printing_listed
    (opts : Dict) (c s : string) (g per_page n : Z) :
  (c, s, g, per_page) ∈ prices →
  opts !! "color" = Some (VStr c) →
  opts !! "size" = Some (VStr s) →
  opts !! "gsm" = Some (VInt g) →
  dict_get_default opts "pages" (VInt 1) = VInt n →
  price_document_printing int_of_str opts = float_of_int (per_page * n).
Proof.
  intros Hin Hc Hs Hg Hn.
  unfold price_document_printing, dict_get. rewrite Hc, Hs, Hg, Hn.
  unfold prices in Hin. split_elem_of; simplify_eq; reflexivity.
Qed.

Lemma listed_unit_price (prod : string) (opts : Dict) (price : Z) :
  listed prod opts price →
  Z.abs price ≤ 2 ^ 53 →
  match price_product prod opts false with
  | Ok (unit, _) => Ok unit
  | Raise e => Raise e
  end = Ok (Fin price).
Proof.
  intros [opts' c s g per_page n Hin Hc Hs Hg Hn | prod' row opts' price' Hin Hrow]
    Hbound.
  - apply float_of_int_exact in Hbound.
    unfold price_product. cbn [String.eqb Ascii.eqb Bool.eqb].
    rewrite (price_document_printing_listed _ _ _ _ _ _ Hin Hc Hs Hg Hn), Hbound.
    reflexivity.
  - clear Hbound. unfold table_4_1 in Hin. unfold row_applies in Hrow.
    split_elem_of; simplify_eq; split_row; cbn in *;
      unfold price_product, price_visiting_cards, price_letterheads,
        price_envelopes, price_flyers, price_posters, price_mugs, dict_get; cbn;
      repeat match goal with
             | H : opts' !! _ = Some _ |- _ => rewrite H; clear H
             end;
      reflexivity.
Qed.

(** C1, as amended.  When every line of a cart carries an option
    combination listed in the tables of section 4.1, with a listed unit
    price of magnitude at most [2^53] and a line quantity of magnitude below
    [2^1024 - 2^970] (one that converts to a double), [compute_price]
    returns a quote whose lines bear exactly the listed unit prices: for a
    document the per-page price of the 12-entry table times the page count,
    for every other product the price of its row. *)
Theorem compute_price_listed_unit_prices (items : list CartItem) (units : list Z) :
  Forall2 (λ it unit,
             listed (product it) (options it) unit
             ∧ Z.abs unit ≤ 2 ^ 53
             ∧ Z.abs (quantity it) < 2 ^ 1024 - 2 ^ 970)
          items units →
  ∃ q, compute_price items = Ok q ∧ li_unit_price <$> q_items q = Fin <$> units.
Proof.
  intros Hall. rewrite compute_price_eq.
  cut (∃ lines, price_lines items = Ok lines
                ∧ li_unit_price <$> lines = Fin <$> units).
  { intros (lines & -> & Hu). eauto. }
  induction Hall
    as [|it unit rest units' (Hit & Hbound & Hqty) _ (lines & Hrest & Hu)];
    cbn.
  - eauto.
  - unfold price_line, unit_price_of.
    rewrite (listed_unit_price _ _ _ Hit Hbound). cbn.
    unfold priced_line, float_mul_int.
    rewrite (float_of_int_in_range _ Hqty). cbn.
    rewrite Hrest. cbn. eexists; split; [reflexivity|]. cbn. by rewrite Hu.
Qed.

(** ** Rejected lines *)

Lemma find_none_all {A : Type} (f : A → bool) (l : list A) :
  (∀ x, x ∈ l → f x = false) → find f l = None.
Proof.
  induction l as [|x l IH]; intros Hall; cbn; [done|].
  rewrite (Hall x) by constructor.
  apply IH. intros y Hy. apply Hall. by constructor.
Qed.

Lemma rejected_raises (it : CartItem) :
  rejected int_of_str it →
  ∃ detail, price_line it = Raise (HTTPException 400 detail).
Proof.
  unfold price_line, unit_price_of.
  intros [Hprod
         | gsm pages Hprod Hg Hp Hhc Hhs Hno
         | qty Hprod Hq Hno
         | gsm qty Hprod Hg Hq Hno
         | qty Hprod Hq Hno
         | qty Hprod Hq Hno
         | qty Hprod Hq Hno].
  - unfold price_product, known_products in *.
    repeat match goal with
           | |- context [String.eqb (product it) ?s] =>
               destruct (String.eqb_spec (product it) s) as [Heq|_];
               [exfalso; apply Hprod; rewrite Heq; set_solver|]
           end.
    cbn. eauto.
  - unfold price_product. rewrite Hprod. cbn.
    unfold price_document_printing, prices_get. cbv zeta.
    rewrite Hg, Hp, Hhc, Hhs. cbn [mbind result_bind andb].
    rewrite find_none_all; [cbn; eauto|].
    intros [[[c s] g] per_page] Hin.
    destruct (py_eq_str _ c) eqn:Hc; [|done].
    destruct (py_eq_str _ s) eqn:Hs; [|done].
    destruct (Z.eqb_spec gsm g) as [->|]; [|done].
    apply py_eq_str_true in Hc, Hs. exfalso. eapply Hno; eauto.
  - unfold price_product. rewrite Hprod. cbn.
    unfold price_visiting_cards. rewrite Hq. cbn. not_in_list Hno.
    repeat match goal with
           | Hv : _ ≠ VStr _ |- _ => apply py_eq_str_false in Hv; rewrite Hv
           end.
    cbn. eauto.
  - unfold price_product. rewrite Hprod. cbn.
    unfold price_letterheads. rewrite Hg, Hq. cbn. not_in_list Hno.
    destruct (Z.eqb_spec gsm 100); [done|].
    destruct (Z.eqb_spec gsm 130); [done|]. cbn. eauto.
  - unfold price_product. rewrite Hprod. cbn.
    unfold price_envelopes. rewrite Hq. cbn. not_in_list Hno.
    repeat match goal with
           | Hv : _ ≠ VStr _ |- _ => apply py_eq_str_false in Hv; rewrite Hv
           end.
    cbn. eauto.
  - unfold price_product. rewrite Hprod. cbn.
    unfold price_flyers. rewrite Hq. cbn. not_in_list Hno.
    repeat match goal with
           | Hv : _ ≠ VStr _ |- _ => apply py_eq_str_false in Hv; rewrite Hv
           end.
    cbn. eauto.
  - unfold price_product. rewrite Hprod. cbn.
    unfold price_mugs. rewrite Hq. cbn. not_in_list Hno.
    destruct (Z.eqb_spec qty 1); [done|].
    destruct (Z.eqb_spec qty 2); [done|].
    destruct (Z.eqb_spec qty 4); [done|]. cbn. eauto.
Qed.

Lemma price_lines_first_failure (pre post : list CartItem) (it : CartItem) (e : exn) :
  (∃ lines, price_lines pre = Ok lines) →
  price_line it = Raise e →
  price_lines (pre ++ it :: post) = Raise e.
Proof.
  intros [lines Hpre] Hit. revert lines Hpre.
  induction pre as [|x pre IH]; intros lines Hpre; cbn in *.
  - by rewrite Hit.
  - destruct (price_line x) as [line|]; cbn in *; [|done].
    destruct (price_lines pre) as [lines'|]; cbn in *; [|done].
    by rewrite (IH lines').
Qed.

Lemma price_lines_some_failure (pre post : list CartItem) (it : CartItem) (e : exn) :
  price_line it = Raise e →
  ∃ e', price_lines (pre ++ it :: post) = Raise e'.
Proof.
  intros Hit. induction pre as [|x pre [e' IH]]; cbn.
  - rewrite Hit. cbn. eauto.
  - destruct (price_line x) as [line|]; cbn; [|eauto].
    rewrite IH. cbn. eauto.
Qed.

(** C2, as amended.  A cart with a [rejected] line gets no quote: a line
    whose product tag is none of the seven, or whose numeric options convert
    to integers while the dimension its pricing function tests is outside
    the accepted values (for a document the colour and size being hashable
    and the (colour, size, gsm) triple no entry of the table; the
    visiting-card paper; the letterhead gsm; the envelope type; the flyer
    size; the mug quantity).  When the lines before the rejected one price,
    the call raises [HTTPException 400] at that line, whatever follows
    it. *)
Theorem compute_price_rejects (pre post : list CartItem) (it : CartItem) :
  rejected int_of_str it →
  (∃ e, compute_price (pre ++ it :: post) = Raise e)
  ∧ ((∃ q, compute_price pre = Ok q) →
     ∃ detail, compute_price (pre ++ it :: post) = Raise (HTTPException 400 detail)).
Proof.
  intros [detail Hit]%rejected_raises. split.
  - rewrite compute_price_eq.
    destruct (price_lines_some_failure pre post it _ Hit) as [e' ->]. eauto.
  - intros [q (lines & Hpre & _)%compute_price_ok_inv].
    exists detail. rewrite compute_price_eq.
    rewrite (price_lines_first_failure pre post it (HTTPException 400 detail));
      eauto.
Qed.

End PricingFacts.


(** ** Sessions, checkout and order lookup *)

Lemma string_app_assoc (s1 s2 s3 : string) :
  (s1 +:+ s2) +:+ s3 = s1 +:+ s2 +:+ s3.
Proof.
  induction s1 as [|a s1 IH]; [reflexivity|].
  change (String a ((s1 +:+ s2) +:+ s3) = String a (s1 +:+ s2 +:+ s3)).
  by rewrite IH.
Qed.

Lemma substring_of_here (sub after : string) : substring_of sub (sub +:+ after).
Proof. by exists "", after. Qed.

Lemma substring_of_app_r (sub before s : string) :
  substring_of sub s → substring_of sub (before +:+ s).
Proof.
  intros (b & a & ->). exists (before +:+ b), a.
  by rewrite string_app_assoc.
Qed.

Lemma office_line_true (it : CartItem) :
  office_line it = true
  ↔ product it = "visiting_cards" ∧ options it !! "card_type" = Some (VStr "office").
Proof.
  unfold office_line, dict_get.
  rewrite andb_true_iff, String.eqb_eq, py_eq_str_true.
  destruct (options it !! "card_type"); cbn; split; intros [? ?]; split;
    congruence.
Qed.

Lemma existsb_office_line (items : list CartItem) :
  existsb office_line items = true
  ↔ Exists (λ it, product it = "visiting_cards"
                  ∧ options it !! "card_type" = Some (VStr "office")) items.
Proof.
  induction items as [|it rest IH]; cbn.
  - split; [done|]. by intros ?%Exists_nil.
  - rewrite orb_true_iff, Exists_cons, IH, office_line_true. done.
Qed.

Section OrderFacts.

Context (int_of_str : string → option Z).
Context {ObjectId : Type} `{EqDecision ObjectId}.
Context (ObjectId_of_str : string → option ObjectId).
Context (str_of_ObjectId : ObjectId → string).

Abbreviation auth_user := (auth_user ObjectId_of_str).
Abbreviation to_object_id := (to_object_id ObjectId_of_str).
Abbreviation place_order :=
  (place_order int_of_str ObjectId_of_str str_of_ObjectId).
Abbreviation get_order := (get_order ObjectId_of_str str_of_ObjectId).

Lemma auth_user_refused (db : Database ObjectId) (tok : option string) :
  token_refused ObjectId_of_str db tok →
  ∃ detail, auth_user db tok = Raise (HTTPException 401 detail).
Proof.
  intros [tok' Habs | t Hnone | t sess Hfind Hgone]; unfold auth_user.
  - rewrite Habs. unfold unauthorized. eauto.
  - destruct (token_absent (Some t)); [unfold unauthorized; eauto|]. cbn.
    rewrite find_none_all; [unfold unauthorized; eauto|].
    intros sess Hin. rewrite Forall_forall in Hnone.
    apply not_true_is_false. intros Heq%String.eqb_eq.
    by apply (Hnone sess).
  - destruct (token_absent (Some t)); [unfold unauthorized; eauto|]. cbn.
    rewrite Hfind.
    destruct (to_object_id (session_user_id sess)) as [oid|] eqn:Hoid;
      [|unfold unauthorized; eauto].
    rewrite find_none_all; [unfold unauthorized; eauto|].
    intros u Hin. rewrite Forall_forall in Hgone.
    apply bool_decide_eq_false_2. intros Heq.
    apply (Hgone u Hin). by rewrite Heq.
Qed.

(** C5.  When the token of a checkout request is absent, is carried by no
    session, or belongs to a session whose user is gone, [place_order]
    raises [HTTPException 401] and the store is left as it was: no order
    is persisted. *)
Theorem place_order_unauthenticated
    (admin : option string) (fresh : ObjectId)
    (db : Database ObjectId) (payload : CheckoutPayload) :
  token_refused ObjectId_of_str db (payload_token payload) →
  ∃ detail,
    place_order admin fresh db payload = (Raise (HTTPException 401 detail), db).
Proof.
  intros [detail Hauth]%auth_user_refused.
  exists detail. unfold place_order. by rewrite Hauth.
Qed.

(** X14.  Whenever [place_order] raises, be it on the token or on the cart,
    the store after the call is the store before it. *)
Lemma place_order_error_keeps_store
    (admin : option string) (fresh : ObjectId)
    (db db' : Database ObjectId) (payload : CheckoutPayload) (e : exn) :
  place_order admin fresh db payload = (Raise e, db') → db' = db.
Proof.
  unfold place_order.
  destruct (auth_user db (payload_token payload)) as [user|e']; [|congruence].
  destruct (compute_price int_of_str (payload_items payload)) as [q|e'];
    [|congruence].
  cbn. destruct (q_contains_office_visiting_cards q); discriminate.
Qed.

(** C6.  For an authenticated caller, [get_order] returns only an order
    whose [user_id] is the caller's id; when no order has the requested id,
    and when every order with that id belongs to someone else, it raises the
    same [HTTPException 404]. *)
Theorem get_order_owner_only
    (db : Database ObjectId) (order_id : string) (tok : option string)
    (user : User ObjectId) :
  auth_user db tok = Ok user →
  (∀ id o, get_order db order_id tok = Ok (id, o) →
           user_id o = str_of_ObjectId (user__id user))
  ∧ (Forall (λ d, Some (order__id d) ≠ to_object_id order_id) (db_order db) →
     get_order db order_id tok = Raise (HTTPException 404 "Order not found"))
  ∧ (Forall (λ d, Some (order__id d) = to_object_id order_id →
                  user_id (order d) ≠ str_of_ObjectId (user__id user))
            (db_order db) →
     get_order db order_id tok = Raise (HTTPException 404 "Order not found")).
Proof.
  intros Hauth. unfold get_order. rewrite Hauth. cbn.
  split; [|split].
  - intros id o.
    destruct (find _ (db_order db)) as [doc|] eqn:Hfind; [|done].
    intros [= <- <-].
    apply find_some in Hfind as [_ Hdoc].
    apply andb_true_iff in Hdoc as [_ Howner].
    by apply String.eqb_eq in Howner.
  - intros Hnone. rewrite find_none_all; [done|].
    intros d Hin. rewrite Forall_forall in Hnone.
    rewrite bool_decide_eq_false_2; [done|]. by apply Hnone.
  - intros Hother. rewrite find_none_all; [done|].
    intros d Hin. rewrite Forall_forall in Hother.
    apply not_true_is_false.
    intros [Hid%bool_decide_eq_true Howner%String.eqb_eq]%andb_true_iff.
    by apply (Hother d Hin).
Qed.

(** C4.  On a checkout that authenticates and prices: when the cart has a
    visiting-cards line whose [card_type] is ["office"], the quote's flag
    is set and the receipt carries a link that contains the new order id
    and the user's mobile number, together with a message; when the cart
    has no such line, the flag is clear and both the link and the message
    are [None]. *)
Theorem office_visiting_cards_checkout
    (admin : option string) (fresh : ObjectId)
    (db : Database ObjectId) (payload : CheckoutPayload)
    (user : User ObjectId) (q : Quote) :
  auth_user db (payload_token payload) = Ok user →
  compute_price int_of_str (payload_items payload) = Ok q →
  let office :=
    Exists (λ it, product it = "visiting_cards"
                  ∧ options it !! "card_type" = Some (VStr "office"))
           (payload_items payload) in
  ∃ receipt db',
    place_order admin fresh db payload = (Ok receipt, db')
    ∧ r_order_id receipt = str_of_ObjectId fresh
    ∧ (office →
       q_contains_office_visiting_cards q = true
       ∧ ∃ link, r_whatsapp_link receipt = Some link
                 ∧ substring_of (r_order_id receipt) link
                 ∧ substring_of (mobile user) link
                 ∧ r_message receipt = Some office_message)
    ∧ (¬ office →
       q_contains_office_visiting_cards q = false
       ∧ r_whatsapp_link receipt = None
       ∧ r_message receipt = None).
Proof.
  intros Hauth Hprice office.
  unfold place_order. rewrite Hauth, Hprice. cbn.
  pose proof Hprice as (lines & _ & ->)%compute_price_ok_inv. cbn.
  destruct (existsb office_line (payload_items payload)) eqn:Hflag.
  - apply existsb_office_line in Hflag.
    eexists _, _. split; [reflexivity|]. cbn. split; [done|]. split; [|done].
    intros _. split; [done|]. eexists. split; [reflexivity|].
    split; [|split; [|done]].
    + do 4 apply substring_of_app_r. apply substring_of_here.
    + do 8 apply substring_of_app_r. apply substring_of_here.
  - eexists _, _. split; [reflexivity|]. cbn. split; [done|]. split; [|done].
    intros Hoffice%existsb_office_line. congruence.
Qed.

End OrderFacts.

(** ** The theorems at sample inputs *)

Example prices_has_12_entries :
  length prices = 12%nat
  ∧ head prices = Some ("bw", "A4", 80, 3)
  ∧ last prices = Some ("colour", "A3", 130, 35).
Proof. repeat split. Qed.

Example mugs_4_total :
  compute_price int_of_digits [cart_line "custom_mug" [("quantity", VInt 4)] None 1]
  = Ok (single_line_quote (cart_line "custom_mug" [("quantity", VInt 4)] None 1)
          1040 0 false)
  ∧ q_total (single_line_quote (cart_line "custom_mug" [("quantity", VInt 4)] None 1)
               1040 0 false) = Fin 1050.
Proof. split; vm_compute; reflexivity. Qed.

(** The double arithmetic at the edge of exactness: [2^53 + 1] is not a
    double, sums above [2^53] are rounded one by one, and an integer of 401
    digits is out of range. *)
Example double_rounding :
  float_of_int (2 ^ 53 + 1) = Ok (Fin (2 ^ 53))
  ∧ float_of_int (2 ^ 53 + 3) = Ok (Fin (2 ^ 53 + 4))
  ∧ running_sum (Fin 0) [Fin (2 ^ 53); Fin 3; Fin 3] = Fin (2 ^ 53 + 8)
  ∧ running_sum (Fin 0) [Fin 3; Fin 3; Fin (2 ^ 53)] = Fin (2 ^ 53 + 6)
  ∧ float_of_int (2 ^ 1024 - 2 ^ 970 - 1) = Ok (Fin (2 ^ 1024 - 2 ^ 971))
  ∧ float_of_int (2 ^ 1024 - 2 ^ 970) = Raise OverflowError
  ∧ float_of_int (10 ^ 400) = Raise OverflowError
  ∧ fmul (Fin (2 ^ 1023)) (Fin 2) = Infinite false
  ∧ fadd (Infinite false) (Infinite true) = NotANumber
  ∧ fmul (Fin 0) (Fin (-3)) = NegZero.
Proof.
  repeat (split; [vm_compute; reflexivity|]). vm_compute. reflexivity.
Qed.

(** On the sample values the arithmetic of this development is that of
    IEEE 754 binary64 as the Standard Library specifies it. *)
Example doubles_agree_with_binary64 :
  forallb agree_float_of_int sample_ints = true
  ∧ forallb (λ a, forallb (agree_add a) sample_doubles) sample_doubles = true
  ∧ forallb (λ a, forallb (agree_mul a) sample_doubles) sample_doubles = true
  ∧ forallb (λ a, agree_float_of_int (value_of a)) sample_doubles = true.
Proof.
  split; [vm_compute; reflexivity|].
  split; [vm_compute; reflexivity|].
  split; vm_compute; reflexivity.
Qed.

(** C1, as stated, fails: [2^53 + 1] black-and-white A4 pages on 80 gsm is a
    listed combination, whose listed price [3 * (2^53 + 1)] is not a double;
    the unit price returned is the double next to it. *)
Lemma listed_price_is_rounded :
  listed (product document_many_pages) (options document_many_pages)
         (3 * (2 ^ 53 + 1))
  ∧ ∃ q, compute_price int_of_digits [document_many_pages] = Ok q
         ∧ li_unit_price <$> q_items q = [Fin 27021597764222980]
         ∧ 27021597764222980 ≠ 3 * (2 ^ 53 + 1).
Proof.
  split.
  - apply (listed_document _ "bw" "A4" 80 3 (2 ^ 53 + 1));
      [unfold prices; repeat constructor | reflexivity ..].
  - eexists. split; [vm_compute; reflexivity|]. split; [reflexivity | discriminate].
Qed.

Example listed_price_overflows :
  listed "document_printing"
         (list_to_map [("color", VStr "bw"); ("size", VStr "A4"); ("gsm", VInt 80);
                       ("pages", VInt (10 ^ 400))])
         (3 * 10 ^ 400)
  ∧ compute_price int_of_digits
      [cart_line "document_printing"
         [("color", VStr "bw"); ("size", VStr "A4"); ("gsm", VInt 80);
          ("pages", VInt (10 ^ 400))] None 1]
    = Raise OverflowError
  ∧ compute_price int_of_digits
      [cart_line "posters" [("quantity", VInt 1)] None (10 ^ 400)]
    = Raise OverflowError.
Proof.
  split; [|split; vm_compute; reflexivity].
  apply (listed_document _ "bw" "A4" 80 3 (10 ^ 400));
    [unfold prices; repeat constructor | reflexivity ..].
Qed.

Lemma compute_price_listed_unit_prices_witness :
  ∃ q, compute_price int_of_digits [document_100_pages; office_cards; posters_10] = Ok q
       ∧ li_unit_price <$> q_items q = [Fin 300; Fin 150; Fin 700].
Proof.
  apply (compute_price_listed_unit_prices int_of_digits
           [document_100_pages; office_cards; posters_10] [300; 150; 700]).
  constructor; [|constructor; [|constructor; [|constructor]]].
  - split; [|split; [vm_compute; discriminate | reflexivity]].
    apply (listed_document _ "bw" "A4" 80 3 100);
      [unfold prices; repeat constructor | reflexivity ..].
  - split; [|split; [vm_compute; discriminate | reflexivity]].
    apply (listed_row _ [("paper", VStr "economy_250_matte"); ("quantity", VInt 50)]).
    + unfold table_4_1. repeat constructor.
    + repeat constructor.
  - split; [|split; [vm_compute; discriminate | reflexivity]].
    apply (listed_row _ [("quantity", VInt 10)]).
    + unfold table_4_1. repeat constructor.
    + repeat constructor.
Defined.

(** C2, as stated, fails: 75 visiting cards on economy paper is no row of
    the table, and the cart is priced at the 100-card tier; a mug quantity
    that is not a number, and a colour that is a list, end in [ValueError]
    and [TypeError], which are no [HTTPException]. *)
Lemma unlisted_quantity_is_priced :
  (¬ ∃ price, listed (product personal_cards_75) (options personal_cards_75) price)
  ∧ compute_price int_of_digits [personal_cards_75]
    = Ok (single_line_quote personal_cards_75 250 0 false)
  ∧ compute_price int_of_digits
      [cart_line "custom_mug" [("quantity", VStr "four")] None 1] = Raise ValueError
  ∧ compute_price int_of_digits
      [cart_line "document_printing"
         [("color", VList [VStr "bw"]); ("size", VStr "A4"); ("gsm", VInt 80)]
         None 1] = Raise TypeError.
Proof.
  split; [|repeat split; vm_compute; reflexivity].
  intros [price Hlisted].
  change (product personal_cards_75) with "visiting_cards" in Hlisted.
  inversion Hlisted; subst.
  match goal with
  | Hin : _ ∈ table_4_1, Hrow : row_applies _ _ |- _ =>
      unfold table_4_1 in Hin; unfold row_applies in Hrow;
      split_elem_of; simplify_eq; split_row; cbn in *
  end;
    match goal with
    | H : _ !! "quantity" = Some _ |- _ => vm_compute in H; discriminate H
    end.
Qed.

Lemma compute_price_rejects_witness :
  rejected int_of_digits mugs_3
  ∧ ∃ detail,
      compute_price int_of_digits [document_100_pages; mugs_3; office_cards]
      = Raise (HTTPException 400 detail).
Proof.
  assert (Hrej : rejected int_of_digits mugs_3).
  { apply (rejected_custom_mug _ _ 3); [reflexivity | reflexivity |].
    intros Hin. split_elem_of; discriminate. }
  split; [exact Hrej|].
  destruct (compute_price_rejects int_of_digits [document_100_pages] [office_cards]
              mugs_3 Hrej) as [_ Hfirst].
  apply Hfirst. eexists. vm_compute. reflexivity.
Defined.

(** C3, as stated, fails: one poster line of quantity [2^53 + 1] has the
    subtotal [80 * 2^53], a platform fee of 10 and no delivery fee, and a
    total equal to the subtotal: the fee is below the spacing of the doubles
    at that magnitude. *)
Lemma total_loses_platform_fee :
  ∃ q s t,
    compute_price int_of_digits [posters_many] = Ok q
    ∧ q_subtotal q = Fin s ∧ q_total q = Fin t
    ∧ q_platform_fee q = 10 ∧ q_delivery_fee q = 0
    ∧ t ≠ s + q_platform_fee q + q_delivery_fee q.
Proof.
  eexists _, _, _. split; [vm_compute; reflexivity|]. cbn.
  repeat split. discriminate.
Qed.

Lemma compute_price_fees_witness :
  compute_price int_of_digits [document_100_pages]
  = Ok (single_line_quote document_100_pages 300 0 false)
  ∧ q_subtotal (single_line_quote document_100_pages 300 0 false) = Fin 300
  ∧ q_delivery_fee (single_line_quote document_100_pages 300 0 false) = 35
  ∧ q_total (single_line_quote document_100_pages 300 0 false) = Fin 345.
Proof.
  assert (Hq : compute_price int_of_digits [document_100_pages]
               = Ok (single_line_quote document_100_pages 300 0 false))
    by (vm_compute; reflexivity).
  destruct (compute_price_fees int_of_digits _ _ Hq)
    as (Hpf & _ & Hfee & _ & _ & _ & Hexact).
  split; [exact Hq|]. split; [reflexivity|].
  split; [apply (Hfee 300 eq_refl); reflexivity|].
  rewrite (Hexact 300 eq_refl) by (vm_compute; discriminate). reflexivity.
Defined.

Lemma price_posters_fallback_witness :
  py_int int_of_digits (dict_get (options posters_10) "quantity") = Ok 10
  ∧ price_posters int_of_digits (options posters_10) = Ok (Fin 700).
Proof.
  split; [reflexivity|].
  destruct (price_posters_fallback int_of_digits (options posters_10) 10 eq_refl)
    as (_ & Hother & _).
  apply Hother. lia.
Defined.

Lemma addon_cost_by_product_witness :
  compute_price int_of_digits [posters_10]
  = Ok (single_line_quote posters_10 700 60 false)
  ∧ li_addon_cost <$> q_items (single_line_quote posters_10 700 60 false) = [Fin 60].
Proof.
  assert (Hq : compute_price int_of_digits [posters_10]
               = Ok (single_line_quote posters_10 700 60 false))
    by (vm_compute; reflexivity).
  split; [exact Hq|].
  pose proof (addon_cost_by_product int_of_digits _ _ Hq) as Hall.
  apply Forall2_cons_1 in Hall as [(Hcost & _) _].
  transitivity [Fin (addon_surcharge (product posters_10) (addons posters_10))];
    [exact (f_equal (λ x, [x]) Hcost) | reflexivity].
Defined.

Lemma tiered_quantity_not_validated_witness :
  py_int int_of_digits (dict_get (options personal_cards_75) "quantity") = Ok 75
  ∧ price_visiting_cards int_of_digits (options personal_cards_75) = Ok (Fin 250).
Proof.
  split; [reflexivity|].
  destruct (tiered_quantity_not_validated int_of_digits (options personal_cards_75)
              75 eq_refl) as [[Heconomy _] _].
  apply Heconomy; [lia | reflexivity].
Defined.

Lemma place_order_unauthenticated_witness :
  ∃ detail,
    place_order int_of_digits ObjectId_of_hex id None "64b7f0c2a1d3e4f5a6b7c8e1"
      sample_db (checkout [mugs_3] (Some "tok-gone"))
    = (Raise (HTTPException 401 detail), sample_db).
Proof.
  apply place_order_unauthenticated.
  eapply refused_dangling; [reflexivity|].
  repeat constructor; discriminate.
Defined.

Example get_order_of_owner :
  get_order ObjectId_of_hex id sample_db "64B7F0C2A1D3E4F5A6B7C8E0" (Some "tok-bob")
  = Ok ("64b7f0c2a1d3e4f5a6b7c8e0", order bobs_order).
Proof. vm_compute. reflexivity. Qed.

Lemma get_order_owner_only_witness :
  auth_user ObjectId_of_hex sample_db (Some "tok-alice") = Ok alice
  ∧ get_order ObjectId_of_hex id sample_db "64b7f0c2a1d3e4f5a6b7c8e0" (Some "tok-alice")
    = Raise (HTTPException 404 "Order not found").
Proof.
  assert (Hauth : auth_user ObjectId_of_hex sample_db (Some "tok-alice") = Ok alice)
    by reflexivity.
  split; [exact Hauth|].
  destruct (get_order_owner_only ObjectId_of_hex id sample_db
              "64b7f0c2a1d3e4f5a6b7c8e0" (Some "tok-alice") alice Hauth)
    as (_ & _ & Hother).
  apply Hother. repeat constructor. discriminate.
Defined.

Lemma office_visiting_cards_checkout_witness :
  ∃ receipt db' link,
    place_order int_of_digits ObjectId_of_hex id None "64b7f0c2a1d3e4f5a6b7c8e1"
      sample_db (checkout [office_cards] (Some "tok-alice"))
    = (Ok receipt, db')
    ∧ r_whatsapp_link receipt = Some link
    ∧ substring_of "64b7f0c2a1d3e4f5a6b7c8e1" link
    ∧ substring_of "9876543210" link
    ∧ r_message receipt = Some office_message.
Proof.
  assert (Hauth : auth_user ObjectId_of_hex sample_db (Some "tok-alice") = Ok alice)
    by reflexivity.
  assert (Hq : compute_price int_of_digits [office_cards]
               = Ok (single_line_quote office_cards 150 0 true))
    by (vm_compute; reflexivity).
  destruct (office_visiting_cards_checkout int_of_digits ObjectId_of_hex id None
              "64b7f0c2a1d3e4f5a6b7c8e1" sample_db
              (checkout [office_cards] (Some "tok-alice")) alice
              (single_line_quote office_cards 150 0 true) Hauth Hq)
    as (receipt & db' & Hplace & Hid & Hoffice & _).
  destruct Hoffice as (_ & link & Hlink & Hsub_id & Hsub_mobile & Hmsg).
  { constructor. split; reflexivity. }
  exists receipt, db', link. rewrite Hid in Hsub_id.
  exact (conj Hplace (conj Hlink (conj Hsub_id (conj Hsub_mobile Hmsg)))).
Defined.

(** What is not an [HTTPException]: a missing numeric option reaches the
    builtin [int] as [None]. *)
Example missing_quantity_raises_type_error :
  compute_price int_of_digits [cart_line "posters" [] None 1] = Raise TypeError.
Proof. vm_compute. reflexivity. Qed.

Example unknown_product_raises_400 :
  compute_price int_of_digits [cart_line "banner" [("quantity", VInt 1)] None 1]
  = Raise (HTTPException 400 "Unknown product").
Proof. vm_compute. reflexivity. Qed.

(** * Further properties of the pricing engine *)

Lemma fmul_exact (x y : Z) :
  Z.abs (x * y) ≤ 2 ^ 53 → double_value (fmul (Fin x) (Fin y)) = Some (x * y).
Proof.
  intros Hxy. cbn.
  destruct (Z.eqb_spec (x * y) 0) as [->|_].
  - by destruct (xorb _ _).
  - by rewrite round_double_exact.
Qed.

Lemma values_of_finite (ds : list double) :
  Forall (λ d, is_Some (double_value d)) ds →
  Forall2 (λ d z, double_value d = Some z) ds (value_of <$> ds).
Proof.
  induction 1 as [|d ds [z Hz] _ IH]; cbn; constructor; [|done].
  unfold value_of. by rewrite Hz.
Qed.

Lemma running_sum_finite (ds : list double) (s : Z) :
  Forall (λ d, is_Some (double_value d)) ds →
  Z.abs s + sum_Z (Z.abs <$> (value_of <$> ds)) ≤ 2 ^ 53 →
  running_sum (Fin s) ds = Fin (s + sum_Z (value_of <$> ds)).
Proof. intros Hfin. apply running_sum_exact. by apply values_of_finite. Qed.

Lemma sum_Z_app (l1 l2 : list Z) : sum_Z (l1 ++ l2) = sum_Z l1 + sum_Z l2.
Proof. unfold sum_Z. induction l1 as [|x l1 IH]; cbn; lia. Qed.

Lemma sum_Z_permutation (l l' : list Z) : l ≡ₚ l' → sum_Z l = sum_Z l'.
Proof.
  unfold sum_Z. induction 1; cbn; lia.
Qed.

Lemma existsb_permutation {A : Type} (f : A → bool) (l l' : list A) :
  l ≡ₚ l' → existsb f l = existsb f l'.
Proof.
  induction 1 as [|x l l' _ IH|x y l|l l' l'' _ IH1 _ IH2]; cbn.
  - done.
  - by rewrite IH.
  - by destruct (f x), (f y).
  - congruence.
Qed.

Section PricingMore.

Context (int_of_str : string → option Z).

Abbreviation py_int := (py_int int_of_str).
Abbreviation price_product := (price_product int_of_str).
Abbreviation compute_price := (compute_price int_of_str).
Abbreviation unit_price_of := (unit_price_of int_of_str).
Abbreviation price_line := (price_line int_of_str).
Abbreviation price_lines := (price_lines int_of_str).

Lemma price_lines_app (a b : list CartItem) :
  price_lines (a ++ b) =
  match price_lines a with
  | Ok la => match price_lines b with
             | Ok lb => Ok (la ++ lb)%list
             | Raise e => Raise e
             end
  | Raise e => Raise e
  end.
Proof.
  induction a as [|it a IH]; cbn.
  - by destruct (price_lines b).
  - destruct (price_line it) as [line|e]; cbn; [|done].
    rewrite IH. destruct (price_lines a) as [la|e]; cbn; [|done].
    by destruct (price_lines b).
Qed.

Lemma price_lines_raise_inv (items : list CartItem) (e : exn) :
  price_lines items = Raise e →
  ∃ (pre : list CartItem) it post lines,
    items = (pre ++ it :: post)%list ∧ price_lines pre = Ok lines
    ∧ price_line it = Raise e.
Proof.
  induction items as [|it rest IH]; cbn; [done|].
  destruct (price_line it) as [line|e'] eqn:Hit; cbn.
  - destruct (price_lines rest) as [lines|e'] eqn:Hrest; cbn; [done|].
    intros [= ->].
    destruct (IH eq_refl) as (pre & it' & post & lines & -> & Hpre & Hit').
    exists (it :: pre), it', post, (line :: lines).
    cbn. rewrite Hit, Hpre. done.
  - intros [= ->]. by exists [], it, rest, [].
Qed.

Lemma price_line_raise_iff (it : CartItem) (e : exn) :
  price_line it = Raise e
  ↔ price_product (product it) (options it) false = Raise e
    ∨ (∃ unit office,
         price_product (product it) (options it) false = Ok (unit, office)
         ∧ float_of_int (quantity it) = Raise e).
Proof.
  unfold price_line, unit_price_of, priced_line, float_mul_int.
  destruct (price_product (product it) (options it) false) as [[unit office]|e'];
    cbn.
  - destruct (float_of_int (quantity it)) as [factor|e'']; cbn.
    + split; [done|]. intros [|(? & ? & _ & ?)]; done.
    + split.
      * intros [= ->]. right. eauto.
      * intros [|(? & ? & _ & [= ->])]; done.
  - split.
    + intros [= ->]. by left.
    + intros [[= ->]|(? & ? & ? & _)]; done.
Qed.

Lemma priced_line_total_exact (it : CartItem) (unit : double) (li : LineItem) (u a : Z) :
  priced_line it unit = Ok li →
  li_unit_price li = Fin u → li_addon_cost li = Fin a →
  Z.abs (u + a) ≤ 2 ^ 53 → Z.abs (quantity it) ≤ 2 ^ 53 →
  Z.abs ((u + a) * quantity it) ≤ 2 ^ 53 →
  double_value (li_line_total li) = Some ((u + a) * quantity it).
Proof.
  intros (_ & _ & _ & _ & _ & Htotal)%priced_line_fields Hu Ha Hsum Hqty Hprod.
  rewrite Hu, Ha in Htotal. unfold float_mul_int in Htotal.
  rewrite float_of_int_exact, fadd_exact in Htotal by done.
  cbn [mbind result_bind] in Htotal. injection Htotal as <-.
  by apply fmul_exact.
Qed.

(** X1.  A quote keeps the cart's lines in order and copies each line's
    product, options and quantity; each line total is the double product
    [(unit_price + addon_cost) * quantity], and the subtotal is the running
    double sum of the line totals from [0.0].  While the amounts stay within
    [2^53] in magnitude these are the exact product and the exact sum. *)
Theorem compute_price_line_arithmetic (items : list CartItem) (q : Quote) :
  compute_price items = Ok q →
  Forall2 (λ it li,
             li_product li = product it ∧ li_options li = options it
             ∧ li_quantity li = quantity it
             ∧ float_mul_int (fadd (li_unit_price li) (li_addon_cost li))
                             (quantity it)
               = Ok (li_line_total li)
             ∧ (∀ u a,
                  li_unit_price li = Fin u → li_addon_cost li = Fin a →
                  Z.abs (u + a) ≤ 2 ^ 53 → Z.abs (quantity it) ≤ 2 ^ 53 →
                  Z.abs ((u + a) * quantity it) ≤ 2 ^ 53 →
                  double_value (li_line_total li) = Some ((u + a) * quantity it)))
          items (q_items q)
  ∧ q_subtotal q = running_sum (Fin 0) (li_line_total <$> q_items q)
  ∧ (Forall (λ li, is_Some (double_value (li_line_total li))) (q_items q) →
     sum_Z (Z.abs <$> (value_of <$> (li_line_total <$> q_items q))) ≤ 2 ^ 53 →
     q_subtotal q = Fin (sum_Z (value_of <$> (li_line_total <$> q_items q)))).
Proof.
  intros (lines & Hlines%price_lines_ok_inv & ->)%compute_price_ok_inv. cbn.
  split; [|split; [done|]].
  - eapply Forall2_impl; [exact Hlines|].
    intros it li (unit & _ & Hline).
    pose proof (priced_line_fields _ _ _ Hline) as (? & ? & ? & ? & ? & ?).
    repeat split; try done.
    intros u a. by apply priced_line_total_exact with unit.
  - intros Hfin Hsum.
    rewrite running_sum_finite; [done | by apply Forall_fmap | done].
Qed.

(** X2.  [compute_price] raises [e] exactly when the cart splits into lines
    that price, followed by a line on which the product branch raises [e],
    or on which the product branch returns and the quantity is too large for
    a double (of magnitude [2^1024 - 2^970] or more), [e] being
    [OverflowError]: the exception is always the one of the first line that
    does not price, and nothing after that line is looked at. *)
Theorem compute_price_failure_origin (items : list CartItem) (e : exn) :
  compute_price items = Raise e
  ↔ ∃ (pre : list CartItem) it post q,
      items = (pre ++ it :: post)%list
      ∧ compute_price pre = Ok q
      ∧ (price_product (product it) (options it) false = Raise e
         ∨ ∃ unit office,
             price_product (product it) (options it) false = Ok (unit, office)
             ∧ 2 ^ 1024 - 2 ^ 970 ≤ Z.abs (quantity it)
             ∧ e = OverflowError).
Proof.
  rewrite compute_price_eq. split.
  - destruct (price_lines items) as [lines|e'] eqn:Hlines; [done|].
    intros [= ->].
    apply price_lines_raise_inv in Hlines
      as (pre & it & post & lines & -> & Hpre & Hit).
    exists pre, it, post, (quote_of lines (existsb office_line pre)).
    split; [done|]. rewrite compute_price_eq, Hpre. split; [done|].
    apply price_line_raise_iff in Hit as [?|(unit & office & ? & Hq)]; [by left|].
    right. exists unit, office. by rewrite <- float_of_int_raise_iff.
  - intros (pre & it & post & q & -> & Hpre & Hit).
    rewrite compute_price_eq in Hpre.
    destruct (price_lines pre) as [lines|] eqn:Hlines; [|done].
    rewrite (price_lines_first_failure int_of_str pre post it e); [done|eauto|].
    apply price_line_raise_iff.
    destruct Hit as [?|(unit & office & ? & Hq)]; [by left|].
    right. exists unit, office. by rewrite float_of_int_raise_iff.
Qed.

Lemma running_sum_app (x : double) (l1 l2 : list double) :
  running_sum x (l1 ++ l2) = running_sum (running_sum x l1) l2.
Proof. unfold running_sum. apply foldl_app. Qed.

(** X3.  When two carts price, so does their concatenation: the line lists
    are appended, the office flag is raised when either raised it, and the
    subtotal is the running double sum of the second cart's line totals from
    the first cart's subtotal.  While the first subtotal and the second
    cart's line totals stay within [2^53] in total magnitude, that is the
    exact sum of the two subtotals. *)
Theorem compute_price_app (a b : list CartItem) (qa qb : Quote) :
  compute_price a = Ok qa →
  compute_price b = Ok qb →
  ∃ q, compute_price (a ++ b) = Ok q
       ∧ q_items q = (q_items qa ++ q_items qb)%list
       ∧ q_contains_office_visiting_cards q =
         q_contains_office_visiting_cards qa || q_contains_office_visiting_cards qb
       ∧ q_subtotal q
         = running_sum (q_subtotal qa) (li_line_total <$> q_items qb)
       ∧ (∀ sa sb,
            q_subtotal qa = Fin sa → q_subtotal qb = Fin sb →
            Forall (λ li, is_Some (double_value (li_line_total li))) (q_items qb) →
            Z.abs sa
            + sum_Z (Z.abs <$> (value_of <$> (li_line_total <$> q_items qb)))
            ≤ 2 ^ 53 →
            q_subtotal q = Fin (sa + sb)).
Proof.
  intros (la & Ha & ->)%compute_price_ok_inv (lb & Hb & ->)%compute_price_ok_inv.
  rewrite compute_price_eq, price_lines_app, Ha, Hb.
  eexists. split; [reflexivity|]. cbn.
  split; [done|]. split; [by rewrite existsb_app|].
  rewrite fmap_app, running_sum_app. split; [done|].
  intros sa sb Hsa Hsb Hfin Hbound. rewrite Hsa.
  assert (Hfin' : Forall (λ d, is_Some (double_value d)) (li_line_total <$> lb))
    by by apply Forall_fmap.
  rewrite running_sum_finite by done.
  rewrite running_sum_finite in Hsb.
  - injection Hsb as <-. f_equal; lia.
  - unfold sum_Z in *. done.
  - pose proof (Z.abs_nonneg sa). unfold sum_Z in *. lia.
Qed.

Lemma price_lines_permutation (items items' : list CartItem) (lines : list LineItem) :
  items ≡ₚ items' →
  price_lines items = Ok lines →
  ∃ lines', price_lines items' = Ok lines' ∧ lines ≡ₚ lines'.
Proof.
  intros Hperm. revert lines.
  induction Hperm as [|x l l' _ IH|x y l|l l' l'' _ IH1 _ IH2]; intros lines; cbn.
  - intros [= <-]. eauto.
  - destruct (price_line x) as [lx|]; cbn; [|done].
    destruct (price_lines l) as [ll|]; cbn; [|done].
    intros [= <-]. destruct (IH ll eq_refl) as (ll' & -> & Hp). cbn.
    eexists. split; [reflexivity|]. by constructor.
  - destruct (price_line y) as [ly|]; cbn; [|done].
    destruct (price_line x) as [lx|]; cbn; [|done].
    destruct (price_lines l) as [ll|]; cbn; [|done].
    intros [= <-]. eexists. split; [reflexivity|]. constructor.
  - intros Hl. destruct (IH1 lines Hl) as (l1 & Hl1 & Hp1).
    destruct (IH2 l1 Hl1) as (l2 & Hl2 & Hp2).
    exists l2. split; [done|]. by etrans.
Qed.

(** X4.  A reordering of a cart that prices also prices, with the same
    lines up to order and the same office flag.  While the line totals are
    finite and stay within [2^53] in total magnitude, the subtotal, the
    delivery fee and the total are the same as well; beyond that the running
    double sum depends on the order. *)
Theorem compute_price_permutation (items items' : list CartItem) (q : Quote) :
  items ≡ₚ items' →
  compute_price items = Ok q →
  ∃ q', compute_price items' = Ok q'
        ∧ q_items q ≡ₚ q_items q'
        ∧ q_contains_office_visiting_cards q' = q_contains_office_visiting_cards q
        ∧ (Forall (λ li, is_Some (double_value (li_line_total li))) (q_items q) →
           sum_Z (Z.abs <$> (value_of <$> (li_line_total <$> q_items q))) ≤ 2 ^ 53 →
           q_subtotal q' = q_subtotal q
           ∧ q_delivery_fee q' = q_delivery_fee q
           ∧ q_total q' = q_total q).
Proof.
  intros Hperm (lines & Hlines & ->)%compute_price_ok_inv.
  destruct (price_lines_permutation _ _ _ Hperm Hlines) as (lines' & Hlines' & Hp).
  rewrite compute_price_eq, Hlines'.
  eexists. split; [reflexivity|].
  unfold quote_of;
    cbn [q_items q_subtotal q_delivery_fee q_total
         q_contains_office_visiting_cards].
  split; [done|]. split; [by rewrite (existsb_permutation _ _ _ Hperm)|].
  intros Hfin Hbound.
  assert (Hfin1 : Forall (λ d, is_Some (double_value d)) (li_line_total <$> lines))
    by by apply Forall_fmap.
  assert (Hp1 : li_line_total <$> lines ≡ₚ li_line_total <$> lines')
    by by apply fmap_Permutation.
  assert (Hfin2 : Forall (λ d, is_Some (double_value d)) (li_line_total <$> lines'))
    by by rewrite <- Hp1.
  assert (Hp2 : value_of <$> (li_line_total <$> lines)
                ≡ₚ value_of <$> (li_line_total <$> lines'))
    by by apply fmap_Permutation.
  assert (Hp3 : Z.abs <$> (value_of <$> (li_line_total <$> lines))
                ≡ₚ Z.abs <$> (value_of <$> (li_line_total <$> lines')))
    by by apply fmap_Permutation.
  assert (Hsub : running_sum (Fin 0) (li_line_total <$> lines')
                 = running_sum (Fin 0) (li_line_total <$> lines)).
  { rewrite (running_sum_finite _ 0 Hfin1) by (change (Z.abs 0) with 0; lia).
    rewrite (running_sum_finite _ 0 Hfin2)
      by (rewrite <- (sum_Z_permutation _ _ Hp3); change (Z.abs 0) with 0; lia).
    by rewrite (sum_Z_permutation _ _ Hp2). }
  by rewrite Hsub.
Qed.

End PricingMore.

Section PricingEdges.

Context (int_of_str : string → option Z).

Abbreviation py_int := (py_int int_of_str).
Abbreviation price_product := (price_product int_of_str).
Abbreviation price_document_printing := (price_document_printing int_of_str).
Abbreviation price_mugs := (price_mugs int_of_str).
Abbreviation compute_price := (compute_price int_of_str).
Abbreviation unit_price_of := (unit_price_of int_of_str).
Abbreviation price_line := (price_line int_of_str).
Abbreviation price_lines := (price_lines int_of_str).

Lemma price_lines_same_order (items items' : list CartItem) :
  Forall2 (λ a b, product a = product b ∧ options a = options b
                  ∧ addons a = addons b ∧ quantity a = quantity b)
          items items' →
  price_lines items = price_lines items'
  ∧ existsb office_line items = existsb office_line items'.
Proof.
  induction 1 as [|a b l l' (Hp & Ho & Ha & Hq) _ [IHl IHo]]; cbn; [done|].
  assert (Hline : price_line a = price_line b).
  { unfold price_line, unit_price_of, priced_line. by rewrite Hp, Ho, Ha, Hq. }
  assert (Hoffice : office_line a = office_line b).
  { unfold office_line. by rewrite Hp, Ho. }
  by rewrite Hline, IHl, IHo, Hoffice.
Qed.

(** X5.  The [unit_price] and [line_total] a client sends with a line are
    never read: two carts whose lines agree on product, options, add-ons and
    quantity get the same answer. *)
Theorem compute_price_ignores_client_prices (items items' : list CartItem) :
  Forall2 (λ a b, product a = product b ∧ options a = options b
                  ∧ addons a = addons b ∧ quantity a = quantity b)
          items items' →
  compute_price items = compute_price items'.
Proof.
  intros [Hl Ho]%price_lines_same_order.
  by rewrite !compute_price_eq, Hl, Ho.
Qed.

Lemma price_lines_any_quantity (items items' : list CartItem) (lines : list LineItem) :
  Forall2 (λ a b, product a = product b ∧ options a = options b
                  ∧ addons a = addons b
                  ∧ Z.abs (quantity b) < 2 ^ 1024 - 2 ^ 970)
          items items' →
  price_lines items = Ok lines →
  ∃ lines', price_lines items' = Ok lines'
            ∧ li_unit_price <$> lines' = li_unit_price <$> lines
            ∧ li_addon_cost <$> lines' = li_addon_cost <$> lines
            ∧ li_quantity <$> lines' = quantity <$> items'.
Proof.
  intros Hall. revert lines.
  induction Hall as [|a b l l' (Hp & Ho & Ha & Hq) _ IH];
    intros lines; cbn.
  - intros [= <-]. eauto.
  - unfold price_line, unit_price_of. rewrite <- Hp, <- Ho.
    destruct (price_product (product a) (options a) false)
      as [[unit ?]|]; cbn; [|done].
    destruct (priced_line a unit) as [la|] eqn:Hla; cbn; [|done].
    destruct (price_lines l) as [ll|]; cbn; [|done].
    intros [= <-]. destruct (IH ll eq_refl) as (ll' & -> & Hu & Hc & Hqty).
    apply priced_line_fields in Hla as (_ & _ & _ & Hua & Hca & _).
    unfold priced_line, float_mul_int.
    rewrite (float_of_int_in_range _ Hq). cbn.
    eexists. split; [reflexivity|]. cbn.
    rewrite Hu, Hc, Hqty, Hua, Hca, <- Hp, <- Ho, <- Ha. done.
Qed.

(** X6.  The quantity of a line is never a reason to turn it down, short
    of overflow: when a cart prices, the cart with other quantities prices
    as well provided each new quantity has a magnitude below
    [2^1024 - 2^970], zero and negative ones too; the unit prices and add-on
    costs are the same and the new quantities are copied into the lines. *)
Theorem compute_price_any_quantity (items items' : list CartItem) (q : Quote) :
  Forall2 (λ a b, product a = product b ∧ options a = options b
                  ∧ addons a = addons b
                  ∧ Z.abs (quantity b) < 2 ^ 1024 - 2 ^ 970)
          items items' →
  compute_price items = Ok q →
  ∃ q', compute_price items' = Ok q'
        ∧ li_unit_price <$> q_items q' = li_unit_price <$> q_items q
        ∧ li_addon_cost <$> q_items q' = li_addon_cost <$> q_items q
        ∧ li_quantity <$> q_items q' = quantity <$> items'.
Proof.
  intros Hall (lines & Hlines & ->)%compute_price_ok_inv.
  destruct (price_lines_any_quantity _ _ _ Hall Hlines) as (lines' & Hl' & ?).
  rewrite compute_price_eq, Hl'. eauto.
Qed.

(** X7.  Unlike the tiered products, mugs are matched strictly: with an
    integer quantity, [price_mugs] returns a price exactly for the
    quantities 1, 2 and 4 (299, 550 and 1040) and raises
    [HTTPException 400] for every other quantity. *)
Theorem price_mugs_strict (opts : Dict) (qty : Z) :
  py_int (dict_get opts "quantity") = Ok qty →
  (∀ unit, price_mugs opts = Ok unit
           ↔ (qty, unit) ∈ [(1, Fin 299); (2, Fin 550); (4, Fin 1040)])
  ∧ (qty ∉ [1; 2; 4] → price_mugs opts = Raise (HTTPException 400 "Invalid options")).
Proof.
  intros Hq. unfold price_mugs. rewrite Hq. cbn. split.
  - intros unit. split.
    + destruct (Z.eqb_spec qty 1) as [->|]; [intros [= <-]; repeat constructor|].
      destruct (Z.eqb_spec qty 2) as [->|]; [intros [= <-]; repeat constructor|].
      destruct (Z.eqb_spec qty 4) as [->|]; [intros [= <-]; repeat constructor|].
      done.
    + intros Hin. split_elem_of; simplify_eq; reflexivity.
  - intros Hn. not_in_list Hn.
    destruct (Z.eqb_spec qty 1); [done|].
    destruct (Z.eqb_spec qty 2); [done|].
    by destruct (Z.eqb_spec qty 4).
Qed.

(** X8.  [price_document_printing] returns a price exactly when the colour
    and size are the strings of an entry of the table, [gsm] converts to
    that entry's weight, [pages] (1 when absent) converts to an integer, and
    the entry's per-page price times that integer has a magnitude below
    [2^1024 - 2^970]; the price is that product rounded to a double, and the
    page count is not checked to be positive. *)
Theorem price_document_printing_ok_iff (opts : Dict) (unit : double) :
  price_document_printing opts = Ok unit
  ↔ ∃ c s g per_page n,
      (c, s, g, per_page) ∈ prices
      ∧ dict_get opts "color" = VStr c
      ∧ dict_get opts "size" = VStr s
      ∧ py_int (dict_get opts "gsm") = Ok g
      ∧ py_int (dict_get_default opts "pages" (VInt 1)) = Ok n
      ∧ Z.abs (per_page * n) < 2 ^ 1024 - 2 ^ 970
      ∧ unit = Fin (round53 (per_page * n)).
Proof.
  unfold price_document_printing, prices_get. cbv zeta. split.
  - destruct (py_int (dict_get opts "gsm")) as [g|] eqn:Hg;
      cbn [mbind result_bind]; [|done].
    destruct (py_int (dict_get_default opts "pages" (VInt 1))) as [n|] eqn:Hn;
      cbn [mbind result_bind]; [|done].
    destruct (hashable (dict_get opts "color") && hashable (dict_get opts "size"));
      cbn [mbind result_bind]; [|done].
    match goal with
    | |- context [find ?f prices] =>
        destruct (find f prices) as [[[[c s] g'] per_page]|] eqn:Hfind
    end; cbn [mbind result_bind fmap option_fmap option_map snd]; [|done].
    intros Hunit.
    apply find_some in Hfind as [Hin Htest].
    apply andb_true_iff in Htest as [[Hc Hs]%andb_true_iff Hgg%Z.eqb_eq].
    apply py_eq_str_true in Hc, Hs. subst g'.
    exists c, s, g, per_page, n. rewrite list_elem_of_In.
    destruct (Z.lt_ge_cases (Z.abs (per_page * n)) (2 ^ 1024 - 2 ^ 970))
      as [Hlt|Hge].
    + rewrite (float_of_int_in_range _ Hlt) in Hunit. by injection Hunit as <-.
    + by rewrite (float_of_int_overflow _ Hge) in Hunit.
  - intros (c & s & g & per_page & n & Hin & Hc & Hs & Hg & Hn & Hlt & ->).
    rewrite Hg, Hn, Hc, Hs. rewrite <- (float_of_int_in_range _ Hlt).
    unfold prices in Hin.
    split_elem_of; simplify_eq; reflexivity.
Qed.

(** X9.  For the six products other than document printing, a unit price
    that is returned is always one of the thirteen amounts of the tables:
    no other amount, and in particular no zero or negative unit price, is
    ever produced. *)
Theorem unit_price_in_tables (prod : string) (opts : Dict) (co co' : bool)
    (unit : double) :
  prod ≠ "document_printing" →
  price_product prod opts co = Ok (unit, co') →
  unit ∈ [ Fin 80; Fin 150; Fin 200; Fin 250; Fin 260; Fin 299; Fin 350; Fin 400;
           Fin 450; Fin 550; Fin 600; Fin 700; Fin 1040 ].
Proof.
  intros Hne. unfold price_product.
  destruct (String.eqb_spec prod "document_printing") as [|_]; [done|].
  unfold price_visiting_cards, price_letterheads, price_envelopes, price_flyers,
    price_posters, price_mugs.
  repeat match goal with
         | |- context [String.eqb prod ?s] => destruct (String.eqb prod s)
         end;
    try done;
    repeat match goal with
           | |- context [py_int ?v] => destruct (py_int v); cbn; [|done]
           end;
    repeat match goal with
           | |- context [if ?b then _ else _] => destruct b; cbn
           end;
    try done; intros [= <- _]; repeat constructor.
Qed.

(** X10.  Whatever dict of add-ons is passed, [price_addons] returns between
    0 and 100, at most 60 on a product other than document printing, and
    the same amount for any [opts]: values it does not know add nothing and
    raise nothing. *)
Theorem price_addons_bounds (addons : option Dict) (prod : string) (opts opts' : Dict) :
  (∃ amount, price_addons addons prod opts = Fin amount
             ∧ 0 ≤ amount ≤ 100
             ∧ (prod ≠ "document_printing" → amount ≤ 60))
  ∧ price_addons addons prod opts = price_addons addons prod opts'.
Proof.
  split; [|reflexivity].
  unfold price_addons.
  destruct (no_addons addons); [exists 0; repeat split; intros; lia|]. cbv zeta.
  destruct (String.eqb_spec prod "document_printing") as [->|Hne];
    rewrite ?andb_true_r, ?andb_false_r;
    repeat match goal with
           | |- context [if ?b then _ else _] => destruct b
           end;
    (eexists; split; [vm_compute; reflexivity|]; split; [lia|]; intros; try lia;
     done).
Qed.

End PricingEdges.

(** * Further properties of sessions, accounts and orders *)

Lemma find_app_last {A : Type} (f : A → bool) (l : list A) (y : A) :
  Forall (λ x, f x = false) l →
  find f (l ++ [y]) = if f y then Some y else None.
Proof.
  induction 1 as [|x l Hx _ IH]; cbn; [done|]. by rewrite Hx.
Qed.

Lemma find_app_first {A : Type} (f : A → bool) (l l' : list A) (x : A) :
  find f l = Some x → find f (l ++ l') = Some x.
Proof.
  induction l as [|y l IH]; cbn; [done|]. by destruct (f y).
Qed.

Lemma find_app_last_is_Some {A : Type} (f : A → bool) (l : list A) (y : A) :
  f y = true → is_Some (find f (l ++ [y])).
Proof.
  intros Hy. induction l as [|x l IH]; cbn.
  - rewrite Hy. eauto.
  - destruct (f x); eauto.
Qed.

Lemma find_none_Forall {A : Type} (f : A → bool) (l : list A) :
  find f l = None → Forall (λ x, f x = false) l.
Proof.
  induction l as [|x l IH]; cbn; [constructor|].
  destruct (f x) eqn:Hx; [done|]. intros Hl. constructor; auto.
Qed.

Section SessionFacts.

Context {ObjectId : Type} `{EqDecision ObjectId}.
Context (ObjectId_of_str : string → option ObjectId).

Abbreviation auth_user := (auth_user ObjectId_of_str).
Abbreviation to_object_id := (to_object_id ObjectId_of_str).

(** X11.  A user returned by [auth_user] is a stored user, named by the
    [user_id] of a stored session that carries the presented token, and the
    token is not empty. *)
Theorem auth_user_sound (db : Database ObjectId) (tok : option string)
    (user : User ObjectId) :
  auth_user db tok = Ok user →
  ∃ t sess,
    tok = Some t ∧ t ≠ ""
    ∧ sess ∈ db_session db ∧ token sess = t
    ∧ user ∈ db_user db
    ∧ to_object_id (session_user_id sess) = Some (user__id user).
Proof.
  unfold auth_user.
  destruct tok as [t|]; cbn; [|done].
  case_bool_decide as Ht; [done|].
  destruct (find _ (db_session db)) as [sess|] eqn:Hsess; [|done].
  apply find_some in Hsess as [Hin Htok%String.eqb_eq].
  destruct (to_object_id (session_user_id sess)) as [oid|] eqn:Hoid; [|done].
  destruct (find _ (db_user db)) as [u|] eqn:Hu; [|done].
  apply find_some in Hu as [Hinu Hid%bool_decide_eq_true].
  intros [= ->].
  exists t, sess. rewrite <- !list_elem_of_In in *. rewrite Hid. done.
Qed.

(** X12.  [auth_user] fails in one way only: whenever it raises, the
    exception is an [HTTPException 401], and the token is absent, carried by
    no session, or carried by a session whose user is not stored. *)
Theorem auth_user_failure (db : Database ObjectId) (tok : option string) (e : exn) :
  auth_user db tok = Raise e →
  token_refused ObjectId_of_str db tok
  ∧ ∃ detail, e = HTTPException 401 detail.
Proof.
  unfold auth_user.
  destruct (token_absent tok) eqn:Habs.
  { intros [= <-]. split; [by constructor|]. eauto. }
  destruct tok as [t|]; [|done]. cbn.
  destruct (find _ (db_session db)) as [sess|] eqn:Hsess.
  - destruct (to_object_id (session_user_id sess)) as [oid|] eqn:Hoid.
    + destruct (find _ (db_user db)) as [u|] eqn:Hu; [done|].
      intros [= <-]. split; [|eauto].
      eapply refused_dangling; [exact Hsess|].
      apply find_none_Forall in Hu.
      eapply Forall_impl; [exact Hu|]. cbn.
      intros u Hne%bool_decide_eq_false. rewrite Hoid. congruence.
    + intros [= <-]. split; [|eauto].
      eapply refused_dangling; [exact Hsess|].
      rewrite Hoid. apply Forall_forall. done.
  - intros [= <-]. split; [|eauto].
    apply refused_unknown. apply find_none_Forall in Hsess.
    eapply Forall_impl; [exact Hsess|]. cbn.
    intros sess Hne Heq. rewrite Heq, String.eqb_refl in Hne. done.
Qed.

(** X13.  [expires_at] is never consulted: two stores with the same users,
    whose sessions agree on [user_id] and [token] one by one, authenticate
    every token alike. *)
Theorem auth_user_ignores_expiry (db db' : Database ObjectId) (tok : option string) :
  db_user db = db_user db' →
  Forall2 (λ s s', session_user_id s = session_user_id s' ∧ token s = token s')
          (db_session db) (db_session db') →
  auth_user db tok = auth_user db' tok.
Proof.
  intros Hu Hs. unfold auth_user. rewrite <- Hu.
  destruct (token_absent tok); [done|].
  generalize (default "" tok). intros t.
  induction Hs as [|s s' l l' [Hid Htok] _ IH]; cbn; [done|].
  rewrite <- Htok. destruct (String.eqb (token s) t); [|exact IH].
  by rewrite Hid.
Qed.

End SessionFacts.

Section OrderMore.

Context (int_of_str : string → option Z).
Context {ObjectId : Type} `{EqDecision ObjectId}.
Context (ObjectId_of_str : string → option ObjectId).
Context (str_of_ObjectId : ObjectId → string).

Abbreviation auth_user := (auth_user ObjectId_of_str).
Abbreviation to_object_id := (to_object_id ObjectId_of_str).
Abbreviation place_order :=
  (place_order int_of_str ObjectId_of_str str_of_ObjectId).
Abbreviation get_order := (get_order ObjectId_of_str str_of_ObjectId).
Abbreviation compute_price := (compute_price int_of_str).

Lemma auth_user_ext (db db' : Database ObjectId) (tok : option string) :
  db_user db = db_user db' → db_session db = db_session db' →
  auth_user db tok = auth_user db' tok.
Proof. unfold auth_user. by intros -> ->. Qed.

Lemma update_one_ids (oid : option ObjectId) (link : string)
    (docs : list (OrderDoc ObjectId)) :
  order__id <$> update_one oid link docs = order__id <$> docs.
Proof.
  induction docs as [|d docs IH]; cbn; [done|].
  case_bool_decide; cbn; [done|]. by rewrite IH.
Qed.

Lemma update_one_app_last (o : ObjectId) (link : string)
    (docs : list (OrderDoc ObjectId)) (d : OrderDoc ObjectId) :
  Forall (λ d, order__id d ≠ o) docs →
  order__id d = o →
  update_one (Some o) link (docs ++ [d])
  = (docs ++ [ {| order__id := order__id d;
                  order := set_whatsapp_link link (order d) |} ])%list.
Proof.
  intros Hdocs Hd.
  induction Hdocs as [|x docs Hx _ IH]; cbn.
  - rewrite bool_decide_eq_true_2; [done|]. by rewrite Hd.
  - rewrite bool_decide_eq_false_2; [by rewrite IH|]. congruence.
Qed.

(** X15.  A checkout that succeeds authenticated and priced the cart, its
    receipt bears the generated id and the total of the quote, and the store
    gained exactly one order document, with the generated id and at the end
    of the collection; users and sessions are as before. *)
Theorem place_order_success_effect
    (admin : option string) (fresh : ObjectId)
    (db db' : Database ObjectId) (payload : CheckoutPayload) (receipt : Receipt) :
  place_order admin fresh db payload = (Ok receipt, db') →
  ∃ user q,
    auth_user db (payload_token payload) = Ok user
    ∧ compute_price (payload_items payload) = Ok q
    ∧ r_order_id receipt = str_of_ObjectId fresh
    ∧ r_total receipt = q_total q
    ∧ r_status receipt = "Order placed"
    ∧ db_user db' = db_user db
    ∧ db_session db' = db_session db
    ∧ order__id <$> db_order db' = ((order__id <$> db_order db) ++ [fresh])%list.
Proof.
  unfold place_order.
  destruct (auth_user db (payload_token payload)) as [user|]; [|done].
  destruct (compute_price (payload_items payload)) as [q|]; [|done].
  cbn. intros Hres. exists user, q. split; [done|]. split; [done|].
  destruct (q_contains_office_visiting_cards q); injection Hres as <- <-; cbn;
    rewrite ?update_one_ids, ?fmap_app; done.
Qed.

(** X16.  An order that was placed can be read back: with an id that the
    constructor reads back from its string form and that no stored order
    has, [get_order] on the store after the checkout, with the id of the
    receipt and the same token, returns the snapshot of the cart, the
    address, the total and the link of the receipt, in status [Placed]. *)
Theorem place_order_then_get_order
    (admin : option string) (fresh : ObjectId)
    (db db' : Database ObjectId) (payload : CheckoutPayload) (receipt : Receipt) :
  place_order admin fresh db payload = (Ok receipt, db') →
  ObjectId_of_str (str_of_ObjectId fresh) = Some fresh →
  Forall (λ d, order__id d ≠ fresh) (db_order db) →
  ∃ o,
    get_order db' (r_order_id receipt) (payload_token payload)
    = Ok (r_order_id receipt, o)
    ∧ items o = payload_items payload
    ∧ address o = payload_address payload
    ∧ total o = r_total receipt
    ∧ whatsapp_link o = r_whatsapp_link receipt
    ∧ status o = Placed.
Proof.
  unfold place_order.
  destruct (auth_user db (payload_token payload)) as [user|] eqn:Hauth; [|done].
  destruct (compute_price (payload_items payload)) as [q|]; [|done].
  cbn. intros Hres Hround Hfresh.
  assert (Hold : ∀ uid, Forall (λ d, bool_decide (Some (order__id d) = Some fresh)
                                  && String.eqb (user_id (order d)) uid = false)
                           (db_order db)).
  { intros uid. eapply Forall_impl; [exact Hfresh|]. cbn. intros d Hd.
    rewrite bool_decide_eq_false_2; [done|]. congruence. }
  destruct (q_contains_office_visiting_cards q); injection Hres as <- <-;
    unfold get_order;
    rewrite (auth_user_ext _ db) by reflexivity;
    rewrite Hauth; cbn; unfold to_object_id; rewrite Hround.
  - rewrite update_one_app_last by done.
    rewrite find_app_last by apply Hold. cbn.
    rewrite bool_decide_eq_true_2, String.eqb_refl by done. cbn.
    eexists. split; [reflexivity|]. done.
  - rewrite find_app_last by apply Hold. cbn.
    rewrite bool_decide_eq_true_2, String.eqb_refl by done. cbn.
    eexists. split; [reflexivity|]. done.
Qed.

End OrderMore.

Lemma find_unique_key {A K : Type} `{EqDecision K} (key : A → K) (l : list A) (x : A) :
  NoDup (key <$> l) → x ∈ l →
  find (λ y, bool_decide (key y = key x)) l = Some x.
Proof.
  induction l as [|y l IH]; cbn; [by intros _ ?%elem_of_nil|].
  intros [Hy Hl]%NoDup_cons [->|Hx]%elem_of_cons.
  - by rewrite bool_decide_eq_true_2.
  - rewrite bool_decide_eq_false_2; [by apply IH|].
    intros Heq. apply Hy. rewrite Heq. by apply list_elem_of_fmap_2.
Qed.

Section AccountFacts.

Context (int_of_str : string → option Z).
Context (hash_password : string → string).
Context {ObjectId : Type} `{EqDecision ObjectId}.
Context (ObjectId_of_str : string → option ObjectId).
Context (str_of_ObjectId : ObjectId → string).

Abbreviation auth_user := (auth_user ObjectId_of_str).
Abbreviation register := (register hash_password str_of_ObjectId).
Abbreviation login := (login hash_password str_of_ObjectId).
Abbreviation me := (me ObjectId_of_str str_of_ObjectId).
Abbreviation profile_of := (profile_of str_of_ObjectId).
Abbreviation place_order :=
  (place_order int_of_str ObjectId_of_str str_of_ObjectId).

Lemma register_taken_iff (db : Database ObjectId) (payload : RegisterPayload) :
  Exists (λ u, email u = reg_email payload ∨ mobile u = reg_mobile payload)
         (db_user db)
  ↔ is_Some (find (λ u, String.eqb (email u) (reg_email payload)
                        || String.eqb (mobile u) (reg_mobile payload))
                  (db_user db)).
Proof.
  induction (db_user db) as [|u l IH]; cbn.
  - split; [by intros ?%Exists_nil | by intros [? ?]].
  - rewrite Exists_cons, IH.
    destruct (String.eqb_spec (email u) (reg_email payload));
      destruct (String.eqb_spec (mobile u) (reg_mobile payload)); cbn;
      split; eauto; intros [[|]|]; done.
Qed.

(** X17.  [register] turns a request down exactly when a stored user has
    the same email or the same mobile number, with [HTTPException 400] and
    the store untouched; otherwise it appends one user, whose
    [password_hash] is the digest of the password, and one session that
    carries the new token and the new user's id, and leaves the orders
    alone. *)
Theorem register_outcome (fresh : ObjectId) (new_token : string)
    (db : Database ObjectId) (payload : RegisterPayload) :
  let taken :=
    Exists (λ u, email u = reg_email payload ∨ mobile u = reg_mobile payload)
           (db_user db) in
  (taken →
   register fresh new_token db payload
   = (Raise (HTTPException 400 "Account already exists"), db))
  ∧ (¬ taken →
     ∃ resp db' user,
       register fresh new_token db payload = (Ok resp, db')
       ∧ response_token resp = new_token
       ∧ response_user resp = profile_of user
       ∧ user__id user = fresh
       ∧ email user = reg_email payload
       ∧ mobile user = reg_mobile payload
       ∧ password_hash user = hash_password (reg_password payload)
       ∧ db_user db' = (db_user db ++ [user])%list
       ∧ db_session db' =
         (db_session db ++
            [ {| session_user_id := str_of_ObjectId fresh; token := new_token;
                 expires_at := 0 |} ])%list
       ∧ db_order db' = db_order db).
Proof.
  intros taken. unfold taken, register. rewrite register_taken_iff.
  destruct (find _ (db_user db)) as [u|]; split.
  - done.
  - intros Hfree. exfalso. apply Hfree. eauto.
  - by intros [? ?].
  - intros _.
    eexists _, _,
      {| user__id := fresh; full_name := reg_full_name payload;
         mobile := reg_mobile payload; email := reg_email payload;
         password_hash := hash_password (reg_password payload);
         addresses :=
           [ {| label := Some "Default";
                address_line := reg_address_line payload;
                city := reg_city payload; pincode := reg_pincode payload;
                is_default := true |} ] |}.
    split; [reflexivity|]. cbn. done.
Qed.

(** X18.  After a registration that succeeded, [me] with the returned token
    gives back the profile that [register] returned, provided the token is
    not empty and no earlier session carries it, and the generated id reads
    back from its string form and is the id of no earlier user. *)
Theorem register_then_me (fresh : ObjectId) (new_token : string)
    (db db' : Database ObjectId) (payload : RegisterPayload) (resp : AuthResponse) :
  register fresh new_token db payload = (Ok resp, db') →
  new_token ≠ "" →
  Forall (λ sess, token sess ≠ new_token) (db_session db) →
  ObjectId_of_str (str_of_ObjectId fresh) = Some fresh →
  Forall (λ u, user__id u ≠ fresh) (db_user db) →
  me db' (Some (response_token resp)) = Ok (response_user resp).
Proof.
  unfold register.
  destruct (find _ (db_user db)); [done|]. cbn.
  intros [= <- <-] Htok Hsess Hround Hfresh. cbn.
  unfold me, auth_user. cbn.
  rewrite bool_decide_eq_false_2 by done.
  rewrite find_app_last.
  2:{ eapply Forall_impl; [exact Hsess|]. cbn. intros s Hs.
      by apply String.eqb_neq. }
  cbn. rewrite String.eqb_refl. unfold to_object_id. cbn [session_user_id].
  rewrite Hround.
  rewrite find_app_last.
  2:{ eapply Forall_impl; [exact Hfresh|]. cbn. intros u Hu.
      by apply bool_decide_eq_false_2. }
  cbn. rewrite bool_decide_eq_true_2 by done. reflexivity.
Qed.

Lemma login_match_iff (payload : LoginPayload) (u : User ObjectId) :
  String.eqb (password_hash u) (hash_password (password payload))
  && (String.eqb (email u) (identifier payload)
      || String.eqb (mobile u) (identifier payload)) = true
  ↔ password_hash u = hash_password (password payload)
    ∧ (email u = identifier payload ∨ mobile u = identifier payload).
Proof.
  by rewrite andb_true_iff, orb_true_iff, !String.eqb_eq.
Qed.

(** X19.  [login] fails, with [HTTPException 401] and the store untouched,
    exactly when no stored user has both the digest of the given password
    and the identifier as email or as mobile number; otherwise it answers
    with the profile of such a user and appends one session that carries the
    new token and that user's id. *)
Theorem login_outcome (new_token : string) (db : Database ObjectId)
    (payload : LoginPayload) :
  let matches (u : User ObjectId) :=
    password_hash u = hash_password (password payload)
    ∧ (email u = identifier payload ∨ mobile u = identifier payload) in
  (¬ Exists matches (db_user db) →
   login new_token db payload
   = (Raise (HTTPException 401 "Invalid credentials"), db))
  ∧ (Exists matches (db_user db) →
     ∃ user,
       user ∈ db_user db ∧ matches user
       ∧ login new_token db payload
         = (Ok {| response_token := new_token; response_user := profile_of user |},
            {| db_user := db_user db;
               db_session :=
                 db_session db ++
                   [ {| session_user_id := str_of_ObjectId (user__id user);
                        token := new_token; expires_at := 0 |} ];
               db_order := db_order db |})).
Proof.
  intros matches. unfold login. cbv zeta.
  destruct (find _ (db_user db)) as [user|] eqn:Hfind; split.
  - intros Hno. exfalso. apply Hno.
    apply find_some in Hfind as [Hin Hm%login_match_iff].
    apply Exists_exists. exists user.
    split; [by apply list_elem_of_In | exact Hm].
  - intros _. exists user.
    apply find_some in Hfind as [Hin Hm%login_match_iff].
    split; [by apply list_elem_of_In|]. split; [exact Hm | reflexivity].
  - done.
  - intros (u & Hin & Hm)%Exists_exists.
    apply find_none_Forall in Hfind. rewrite Forall_forall in Hfind.
    apply login_match_iff in Hm. by rewrite (Hfind u Hin) in Hm.
Qed.

(** X20.  After a login that succeeded, [me] with the new token gives back
    the profile that [login] returned, provided the token is not empty and
    no earlier session carries it, the ids of the stored users read back
    from their string form and no two users share an id. *)
Theorem login_then_me (new_token : string) (db db' : Database ObjectId)
    (payload : LoginPayload) (resp : AuthResponse) :
  login new_token db payload = (Ok resp, db') →
  new_token ≠ "" →
  Forall (λ sess, token sess ≠ new_token) (db_session db) →
  Forall (λ u, ObjectId_of_str (str_of_ObjectId (user__id u)) = Some (user__id u))
         (db_user db) →
  NoDup (user__id <$> db_user db) →
  response_token resp = new_token
  ∧ me db' (Some new_token) = Ok (response_user resp).
Proof.
  unfold login. cbv zeta.
  destruct (find _ (db_user db)) as [user|] eqn:Hfind; [|done].
  intros [= <- <-] Htok Hsess Hround Hids. split; [done|].
  apply find_some in Hfind as [Hin%list_elem_of_In _].
  rewrite Forall_forall in Hround. specialize (Hround user Hin).
  unfold me, auth_user. cbn.
  rewrite bool_decide_eq_false_2 by done.
  rewrite find_app_last.
  2:{ eapply Forall_impl; [exact Hsess|]. cbn. intros s Hs.
      by apply String.eqb_neq. }
  cbn. rewrite String.eqb_refl. unfold to_object_id. cbn [session_user_id].
  rewrite Hround.
  rewrite (find_unique_key user__id) by done. reflexivity.
Qed.

(** X21.  A registration that succeeded can be followed by a login: with the
    registered password and the registered email, or the registered mobile
    number, as identifier, [login] on the store after [register] does not
    fail. *)
Theorem register_then_login (fresh : ObjectId) (new_token next_token : string)
    (db db' : Database ObjectId) (payload : RegisterPayload) (resp : AuthResponse)
    (ident : string) :
  register fresh new_token db payload = (Ok resp, db') →
  ident = reg_email payload ∨ ident = reg_mobile payload →
  ∃ resp' db'',
    login next_token db' {| identifier := ident; password := reg_password payload |}
    = (Ok resp', db'')
    ∧ response_token resp' = next_token.
Proof.
  unfold register.
  destruct (find _ (db_user db)); [done|]. cbn.
  intros [= <- <-] Hident.
  unfold login. cbv zeta. cbn [db_user create_session_document password identifier].
  match goal with
  | |- context [find ?f (?l ++ [?u])] =>
      destruct (find_app_last_is_Some f l u) as [user ->]
  end.
  - cbn. rewrite !String.eqb_refl. cbn.
    destruct Hident as [-> | ->]; rewrite String.eqb_refl; by rewrite ?orb_true_r.
  - eauto.
Qed.

Lemma place_order_users (admin : option string) (fresh : ObjectId)
    (db : Database ObjectId) (payload : CheckoutPayload) :
  db_user (place_order admin fresh db payload).2 = db_user db.
Proof.
  unfold place_order.
  destruct (auth_user db (payload_token payload)) as [user|]; [|done].
  destruct (compute_price int_of_str (payload_items payload)) as [q|]; [|done].
  cbn. by destruct (q_contains_office_visiting_cards q).
Qed.

(** X22.  No operation introduces a duplicate contact: when no two stored
    users share an email or a mobile number, the same holds of the store
    after [register], after [login] and after [place_order], whether the
    call succeeded or not. *)
Theorem unique_contacts_preserved (db : Database ObjectId) :
  unique_contacts db →
  (∀ fresh new_token payload,
     unique_contacts (register fresh new_token db payload).2)
  ∧ (∀ new_token payload, unique_contacts (login new_token db payload).2)
  ∧ (∀ admin fresh payload,
       unique_contacts (place_order admin fresh db payload).2).
Proof.
  intros [Hemail Hmobile]. split; [|split].
  - intros fresh new_token payload. unfold register.
    destruct (find _ (db_user db)) eqn:Hfind; [done|].
    apply find_none_Forall in Hfind. rewrite Forall_forall in Hfind.
    unfold unique_contacts. cbn. rewrite !fmap_app. cbn.
    split; apply NoDup_app; (split; [done|]); (split; [|apply NoDup_singleton]);
      intros x (u & -> & Hu)%list_elem_of_fmap Hx%list_elem_of_singleton;
      specialize (Hfind u Hu); apply orb_false_iff in Hfind as [He Hm];
      apply String.eqb_neq in He, Hm; done.
  - intros new_token payload. unfold login. cbv zeta.
    by destruct (find _ (db_user db)).
  - intros admin fresh payload. unfold unique_contacts.
    by rewrite place_order_users.
Qed.

(** X23.  Whatever order the sort gives, [list_orders] returns the caller's
    orders and only those: every entry is owned by the authenticated user,
    every stored order of that user is among the entries, and there are as
    many entries as stored orders of that user. *)
Theorem list_orders_owner_only
    (sort_created_at_desc : list (OrderDoc ObjectId) → list (OrderDoc ObjectId))
    (db : Database ObjectId) (tok : option string)
    (user : User ObjectId) :
  (∀ docs, sort_created_at_desc docs ≡ₚ docs) →
  auth_user db tok = Ok user →
  ∃ entries,
    list_orders ObjectId_of_str str_of_ObjectId sort_created_at_desc db tok
    = Ok entries
    ∧ Forall (λ entry, user_id entry.2 = str_of_ObjectId (user__id user)) entries
    ∧ (∀ d, d ∈ db_order db →
            user_id (order d) = str_of_ObjectId (user__id user) →
            (str_of_ObjectId (order__id d), order d) ∈ entries)
    ∧ length entries
      = length (List.filter
                  (λ d, String.eqb (user_id (order d))
                                   (str_of_ObjectId (user__id user)))
                  (db_order db)).
Proof.
  intros Hsort Hauth. unfold list_orders. rewrite Hauth. cbn.
  eexists. split; [reflexivity|].
  set (mine := List.filter _ (db_order db)).
  split; [|split].
  - apply Forall_fmap. rewrite (Hsort mine). apply Forall_forall.
    intros d Hd. cbn.
    apply list_elem_of_In, filter_In in Hd as [_ Hd]. by apply String.eqb_eq.
  - intros d Hd Hown.
    apply (list_elem_of_fmap_2 (λ d, (str_of_ObjectId (order__id d), order d))).
    rewrite (Hsort mine). apply list_elem_of_In, filter_In.
    split; [by apply list_elem_of_In | by apply String.eqb_eq].
  - rewrite length_fmap. by rewrite (Hsort mine).
Qed.

End AccountFacts.

(** ** The further theorems at sample inputs *)

Lemma compute_price_line_arithmetic_witness :
  Forall2 (λ it li, li_product li = product it ∧ li_quantity li = quantity it)
          [posters_10] (q_items (single_line_quote posters_10 700 60 false))
  ∧ q_subtotal (single_line_quote posters_10 700 60 false) = Fin 1520.
Proof.
  destruct (compute_price_line_arithmetic int_of_digits [posters_10]
              (single_line_quote posters_10 700 60 false))
    as (Hlines & _ & Hsum); [vm_compute; reflexivity|].
  split.
  - eapply Forall2_impl; [exact Hlines|]. intros it li (? & _ & ? & _). done.
  - rewrite Hsum; [reflexivity | repeat constructor; eexists; reflexivity
                  | vm_compute; discriminate].
Defined.

Lemma compute_price_app_witness :
  ∃ q, compute_price int_of_digits ([document_100_pages] ++ [office_cards]) = Ok q
       ∧ q_subtotal q = Fin (300 + 150)
       ∧ q_contains_office_visiting_cards q = true.
Proof.
  destruct (compute_price_app int_of_digits [document_100_pages] [office_cards]
              (single_line_quote document_100_pages 300 0 false)
              (single_line_quote office_cards 150 0 true))
    as (q & Hq & _ & Hflag & _ & Hsub); [vm_compute; reflexivity ..|].
  exists q. split; [exact Hq|]. split; [|exact Hflag].
  apply Hsub; [reflexivity | reflexivity | repeat constructor; eexists; reflexivity
              | vm_compute; discriminate].
Defined.

Lemma compute_price_permutation_witness :
  ∃ q q',
    compute_price int_of_digits [document_100_pages; office_cards] = Ok q
    ∧ compute_price int_of_digits [office_cards; document_100_pages] = Ok q'
    ∧ q_items q ≡ₚ q_items q'.
Proof.
  assert (Hq : ∃ q, compute_price int_of_digits [document_100_pages; office_cards]
                    = Ok q)
    by (eexists; vm_compute; reflexivity).
  destruct Hq as [q Hq].
  destruct (compute_price_permutation int_of_digits
              [document_100_pages; office_cards] [office_cards; document_100_pages]
              q (perm_swap _ _ _) Hq)
    as (q' & Hq' & Hitems & _).
  exists q, q'. split; [exact Hq|]. split; [exact Hq' | exact Hitems].
Defined.

Lemma compute_price_ignores_client_prices_witness :
  compute_price int_of_digits [posters_10]
  = compute_price int_of_digits
      [ {| product := product posters_10; options := options posters_10;
           addons := addons posters_10; quantity := quantity posters_10;
           unit_price := Some (Finite 1 0); line_total := Some (Finite 2 0) |} ].
Proof.
  apply compute_price_ignores_client_prices.
  repeat constructor.
Defined.

Lemma compute_price_any_quantity_witness :
  ∃ q', compute_price int_of_digits
          [ {| product := product posters_10; options := options posters_10;
               addons := addons posters_10; quantity := -3;
               unit_price := None; line_total := None |} ] = Ok q'
        ∧ li_unit_price <$> q_items q' = [Fin 700]
        ∧ li_quantity <$> q_items q' = [-3].
Proof.
  destruct (compute_price_any_quantity int_of_digits [posters_10]
              [ {| product := product posters_10; options := options posters_10;
                   addons := addons posters_10; quantity := -3;
                   unit_price := None; line_total := None |} ]
              (single_line_quote posters_10 700 60 false))
    as (q' & Hq' & Hunit & _ & Hqty);
    [ constructor; [|constructor]; repeat split | vm_compute; reflexivity |].
  exists q'. split; [exact Hq'|]. split; [exact Hunit | exact Hqty].
Defined.

Lemma price_mugs_strict_witness :
  py_int int_of_digits (dict_get (options mugs_3) "quantity") = Ok 3
  ∧ price_mugs int_of_digits (options mugs_3)
    = Raise (HTTPException 400 "Invalid options").
Proof.
  split; [reflexivity|].
  destruct (price_mugs_strict int_of_digits (options mugs_3) 3 eq_refl) as [_ Hno].
  apply Hno. intros Hin. split_elem_of; discriminate.
Defined.

Lemma unit_price_in_tables_witness :
  price_product int_of_digits "posters" (options posters_10) false
  = Ok (Fin 700, false)
  ∧ Fin 700 ∈ [ Fin 80; Fin 150; Fin 200; Fin 250; Fin 260; Fin 299; Fin 350;
                Fin 400; Fin 450; Fin 550; Fin 600; Fin 700; Fin 1040 ].
Proof.
  split; [reflexivity|].
  apply (unit_price_in_tables int_of_digits "posters" (options posters_10)
           false false (Fin 700)); [discriminate | reflexivity].
Defined.

Lemma auth_user_sound_witness :
  ∃ t sess,
    Some "tok-alice" = Some t ∧ t ≠ ""
    ∧ sess ∈ db_session sample_db ∧ token sess = t
    ∧ alice ∈ db_user sample_db
    ∧ to_object_id ObjectId_of_hex (session_user_id sess) = Some (user__id alice).
Proof.
  apply (auth_user_sound ObjectId_of_hex sample_db (Some "tok-alice") alice).
  reflexivity.
Defined.

Lemma auth_user_failure_witness :
  token_refused ObjectId_of_hex sample_db (Some "tok-gone")
  ∧ ∃ detail, HTTPException 401 "User not found" = HTTPException 401 detail.
Proof.
  apply (auth_user_failure ObjectId_of_hex sample_db (Some "tok-gone")).
  reflexivity.
Defined.

Lemma auth_user_ignores_expiry_witness :
  auth_user ObjectId_of_hex sample_db (Some "tok-alice")
  = auth_user ObjectId_of_hex
      {| db_user := db_user sample_db;
         db_session :=
           (λ s, {| session_user_id := session_user_id s; token := token s;
                    expires_at := 1 |}) <$> db_session sample_db;
         db_order := [] |}
      (Some "tok-alice").
Proof.
  apply auth_user_ignores_expiry; [reflexivity|].
  repeat constructor.
Defined.

Lemma place_order_error_keeps_store_witness :
  ∃ e db',
    place_order int_of_digits ObjectId_of_hex id None "64b7f0c2a1d3e4f5a6b7c8e1"
      sample_db (checkout [mugs_3] (Some "tok-alice"))
    = (Raise e, db')
    ∧ db' = sample_db.
Proof.
  eexists _, _. split; [vm_compute; reflexivity|].
  apply (place_order_error_keeps_store int_of_digits ObjectId_of_hex id None
           "64b7f0c2a1d3e4f5a6b7c8e1" sample_db _ (checkout [mugs_3] (Some "tok-alice"))
           (HTTPException 400 "Invalid options")).
  vm_compute. reflexivity.
Defined.

Lemma place_order_success_effect_witness :
  ∃ receipt db',
    place_order int_of_digits ObjectId_of_hex id None "64b7f0c2a1d3e4f5a6b7c8e1"
      sample_db (checkout [office_cards] (Some "tok-alice"))
    = (Ok receipt, db')
    ∧ r_total receipt = Fin 195
    ∧ order__id <$> db_order db'
      = ["64b7f0c2a1d3e4f5a6b7c8e0"; "64b7f0c2a1d3e4f5a6b7c8e1"].
Proof.
  assert (Hplace : ∃ receipt db',
             place_order int_of_digits ObjectId_of_hex id None
               "64b7f0c2a1d3e4f5a6b7c8e1" sample_db
               (checkout [office_cards] (Some "tok-alice"))
             = (Ok receipt, db'))
    by (eexists _, _; vm_compute; reflexivity).
  destruct Hplace as (receipt & db' & Hplace).
  destruct (place_order_success_effect int_of_digits ObjectId_of_hex id None
              "64b7f0c2a1d3e4f5a6b7c8e1" sample_db db'
              (checkout [office_cards] (Some "tok-alice")) receipt Hplace)
    as (user & q & _ & Hq & _ & Htotal & _ & _ & _ & Hids).
  exists receipt, db'. split; [exact Hplace|]. split; [|exact Hids].
  rewrite Htotal.
  assert (Hq' : compute_price int_of_digits [office_cards]
                = Ok (single_line_quote office_cards 150 0 true))
    by (vm_compute; reflexivity).
  change (compute_price int_of_digits [office_cards] = Ok q) in Hq.
  rewrite Hq' in Hq. injection Hq as <-. reflexivity.
Defined.

Lemma place_order_then_get_order_witness :
  ∃ receipt db' o,
    place_order int_of_digits ObjectId_of_hex id None "64b7f0c2a1d3e4f5a6b7c8e1"
      sample_db (checkout [office_cards] (Some "tok-alice"))
    = (Ok receipt, db')
    ∧ get_order ObjectId_of_hex id db' (r_order_id receipt) (Some "tok-alice")
      = Ok (r_order_id receipt, o)
    ∧ whatsapp_link o = r_whatsapp_link receipt.
Proof.
  assert (Hplace : ∃ receipt db',
             place_order int_of_digits ObjectId_of_hex id None
               "64b7f0c2a1d3e4f5a6b7c8e1" sample_db
               (checkout [office_cards] (Some "tok-alice"))
             = (Ok receipt, db'))
    by (eexists _, _; vm_compute; reflexivity).
  destruct Hplace as (receipt & db' & Hplace).
  destruct (place_order_then_get_order int_of_digits ObjectId_of_hex id None
              "64b7f0c2a1d3e4f5a6b7c8e1" sample_db db'
              (checkout [office_cards] (Some "tok-alice")) receipt Hplace)
    as (o & Hget & _ & _ & _ & Hlink & _);
    [reflexivity | repeat constructor; discriminate |].
  exists receipt, db', o. split; [exact Hplace|]. split; [exact Hget | exact Hlink].
Defined.

Lemma register_then_me_witness :
  ∃ resp db',
    register sample_hash id "64b7f0c2a1d3e4f5a6b7c8dc" "tok-carol" sample_db
      carol_payload
    = (Ok resp, db')
    ∧ me ObjectId_of_hex id db' (Some (response_token resp)) = Ok (response_user resp).
Proof.
  assert (Hreg : ∃ resp db',
             register sample_hash id "64b7f0c2a1d3e4f5a6b7c8dc" "tok-carol"
               sample_db carol_payload
             = (Ok resp, db'))
    by (eexists _, _; vm_compute; reflexivity).
  destruct Hreg as (resp & db' & Hreg).
  exists resp, db'. split; [exact Hreg|].
  apply (register_then_me sample_hash ObjectId_of_hex id
           "64b7f0c2a1d3e4f5a6b7c8dc" "tok-carol" sample_db db' carol_payload resp
           Hreg);
    [discriminate | repeat constructor; discriminate | reflexivity
    | repeat constructor; discriminate].
Defined.

Lemma login_then_me_witness :
  ∃ resp db',
    login sample_hash id "tok-dave" accounts_db
      {| identifier := "9000000002"; password := "hunter2" |}
    = (Ok resp, db')
    ∧ response_token resp = "tok-dave"
    ∧ me ObjectId_of_hex id db' (Some "tok-dave") = Ok (response_user resp).
Proof.
  assert (Hlogin : ∃ resp db',
             login sample_hash id "tok-dave" accounts_db
               {| identifier := "9000000002"; password := "hunter2" |}
             = (Ok resp, db'))
    by (eexists _, _; vm_compute; reflexivity).
  destruct Hlogin as (resp & db' & Hlogin).
  exists resp, db'. split; [exact Hlogin|].
  apply (login_then_me sample_hash ObjectId_of_hex id "tok-dave" accounts_db db'
           {| identifier := "9000000002"; password := "hunter2" |} resp Hlogin);
    [discriminate | repeat constructor; discriminate | repeat constructor |].
  apply (bool_decide_unpack _). vm_compute. exact I.
Defined.

Lemma register_then_login_witness :
  ∃ resp' db'',
    login sample_hash id "tok-carol-2"
      (register sample_hash id "64b7f0c2a1d3e4f5a6b7c8dc" "tok-carol" sample_db
         carol_payload).2
      {| identifier := "carol@example.com"; password := "s3cret" |}
    = (Ok resp', db'')
    ∧ response_token resp' = "tok-carol-2".
Proof.
  assert (Hreg : ∃ resp db',
             register sample_hash id "64b7f0c2a1d3e4f5a6b7c8dc" "tok-carol"
               sample_db carol_payload
             = (Ok resp, db'))
    by (eexists _, _; vm_compute; reflexivity).
  destruct Hreg as (resp & db' & Hreg).
  rewrite Hreg. cbn [snd].
  apply (register_then_login sample_hash id "64b7f0c2a1d3e4f5a6b7c8dc" "tok-carol"
           "tok-carol-2" sample_db db' carol_payload resp "carol@example.com" Hreg).
  left. reflexivity.
Defined.

Lemma unique_contacts_preserved_witness :
  unique_contacts
    (register sample_hash id "64b7f0c2a1d3e4f5a6b7c8dc" "tok-carol" sample_db
       carol_payload).2.
Proof.
  assert (Huniq : unique_contacts sample_db).
  { split; apply (bool_decide_unpack _); vm_compute; exact I. }
  destruct (unique_contacts_preserved int_of_digits sample_hash ObjectId_of_hex id
              sample_db Huniq) as [Hreg _].
  apply Hreg.
Defined.

Lemma list_orders_owner_only_witness :
  ∃ entries,
    list_orders ObjectId_of_hex id (@rev _) sample_db (Some "tok-bob") = Ok entries
    ∧ Forall (λ entry, user_id entry.2 = user__id bob) entries
    ∧ length entries = 1%nat.
Proof.
  destruct (list_orders_owner_only ObjectId_of_hex id (@rev _) sample_db
              (Some "tok-bob") bob)
    as (entries & Hlist & Hown & _ & Hlen).
  - intros docs. symmetry. apply Permutation_rev.
  - reflexivity.
  - exists entries. split; [exact Hlist|]. split; [exact Hown | exact Hlen].
Defined.
